(** * Parameter validators of the network command module

    A shallow embedding of
    [azure/cli/command_modules/network/_validators.py]: every validator is a
    function that takes the argparse namespace, mutates some of its
    attributes in place and either returns or raises.  The namespace is a
    finite map from attribute names to Python values, a validator is a
    computation in a state-and-exception monad over that map. *)

From Stdlib Require Import ZArith NArith Lia Ascii String List Bool.
From Stdlib.Strings Require Import Byte.
From stdpp Require Import base option strings list gmap fin_maps pretty.

Set Warnings "-register-all".

Local Open Scope string_scope.
Local Open Scope list_scope.

(** ** Python values held by a namespace *)

Inductive value : Type :=
| VNone
| VBool (b : bool)
| VInt (n : Z)
| VStr (s : string)
| VBytes (b : list Byte.byte)
| VList (items : list value)
| VDict (entries : list (string * value)).

(** Truth value of an object, as tested by [if x], [not x], [and], [or]. *)
Definition truthy (v : value) : bool :=
  match v with
  | VNone => false
  | VBool b => b
  | VInt n => negb (n =? 0)%Z
  | VStr s => negb (String.eqb s "")
  | VBytes b => match b with [] => false | _ => true end
  | VList l => match l with [] => false | _ => true end
  | VDict d => match d with [] => false | _ => true end
  end.

Definition is_none (v : value) : bool :=
  match v with VNone => true | _ => false end.

(** [v == 'lit'] for a string literal. *)
Definition eq_str (v : value) (lit : string) : bool :=
  match v with VStr s => String.eqb s lit | _ => false end.

(** ** Exceptions and the validator monad *)

Inductive exn : Type :=
| CLIError (msg : string)
| ArgumentError (msg : string)
| AttributeError (name : string)
| TypeError
| IOError.

Inductive outcome (A : Type) : Type :=
| Ok (a : A)
| Raise (e : exn).
Arguments Ok {A} a.
Arguments Raise {A} e.

Definition raised {A} (o : outcome A) : bool :=
  match o with Ok _ => false | Raise _ => true end.

Abbreviation namespace := (gmap string value).

Definition M (A : Type) : Type := namespace -> outcome A * namespace.

Definition ret {A} (a : A) : M A := fun ns => (Ok a, ns).

Definition bind {A B} (c : M A) (k : A -> M B) : M B :=
  fun ns =>
    match c ns with
    | (Ok a, ns') => k a ns'
    | (Raise e, ns') => (Raise e, ns')
    end.

Definition raise {A} (e : exn) : M A := fun ns => (Raise e, ns).

Notation "'let*' x ':=' c 'in' k" := (bind c (fun x => k))
  (at level 10, x name, c at level 100, k at level 200).
Notation "c ';;' k" := (bind c (fun _ => k))
  (at level 100, k at level 200, right associativity).

(** [namespace.name]: an attribute that was never set raises. *)
Definition getattr (name : string) : M value :=
  fun ns =>
    match ns !! name with
    | Some v => (Ok v, ns)
    | None => (Raise (AttributeError name), ns)
    end.

(** [namespace.name = v]. *)
Definition setattr (name : string) (v : value) : M unit :=
  fun ns => (Ok tt, <[name := v]> ns).

(** [if c: body] with no else branch. *)
Definition when (c : bool) (body : M unit) : M unit :=
  if c then body else ret tt.

(** ** Keyword arguments of [resource_id] *)

Record rid_kwargs : Type := {
  kw_subscription : value;
  kw_resource_group : value;
  kw_namespace : value;
  kw_type : value;
  kw_name : value;
  kw_child_type : option value;
  kw_child_name : option value
}.

(** ** Collaborators

    The validators call into the resource-identifier library, the session
    context and the Python runtime.  None of that code is part of this
    module; the validators are written against this interface. *)

Class Collaborators : Type := {
  (** [azure.cli.commands.arm.is_valid_resource_id] *)
  is_valid_resource_id : value -> bool;
  (** [azure.cli.commands.arm.resource_id], called with keyword arguments *)
  resource_id : rid_kwargs -> string;
  (** [azure.cli.commands.client_factory.get_subscription_id()] *)
  get_subscription_id : string;
  (** [str.format] of one value into a [{}] placeholder, and [str(x)] *)
  str_of : value -> string;
  (** [socket.inet_aton]: [true] when it returns, [false] when it raises
      [socket.error] *)
  inet_aton : string -> bool;
  (** [open(path, 'rb').read()]: the bytes of the file, [None] when the file
      cannot be opened *)
  open_rb : value -> option (list byte)
}.

(** Modelled from the spec: SPECIFIED_SENTINEL, the constant imported from
    azure.cli.commands.validators, is the [__SET__] marker that
    [markSpecifiedAction] puts in front of an explicitly given value. *)
Definition SPECIFIED_SENTINEL : string := "__SET__".

(** ** Python string operations *)

(** [p in s] on strings. *)
Fixpoint contains (p s : string) : bool :=
  String.prefix p s ||
  match s with
  | EmptyString => false
  | String _ s' => contains p s'
  end.

Fixpoint replace_from (old new : string) (skip : nat) (s : string) : string :=
  match s with
  | EmptyString => EmptyString
  | String c s' =>
      match skip with
      | S k => replace_from old new k s'
      | O =>
          if String.prefix old s
          then new ++ replace_from old new (String.length old - 1) s'
          else String c (replace_from old new 0 s')
      end
  end.

Fixpoint interleave (new s : string) : string :=
  match s with
  | EmptyString => new
  | String c s' => new ++ String c (interleave new s')
  end.

(** [s.replace(old, new)]: the occurrences of [old] are found from left to
    right without overlap, in one pass. *)
Definition str_replace (old new s : string) : string :=
  match old with
  | EmptyString => interleave new s
  | _ => replace_from old new 0 s
  end.

(** [lit in v] for a string literal [lit]. *)
Definition py_in (lit : string) (v : value) : M bool :=
  match v with
  | VStr s => ret (contains lit s)
  | VList l => ret (existsb (fun x => eq_str x lit) l)
  | VDict d => ret (existsb (fun kv => String.eqb (fst kv) lit) d)
  | _ => raise TypeError
  end.

(** [v.replace(old, new)] with string literals [old] and [new]. *)
Definition py_replace (v : value) (old new : string) : M value :=
  match v with
  | VStr s => ret (VStr (str_replace old new s))
  | VBytes _ => raise TypeError
  | _ => raise (AttributeError "replace")
  end.

(** [raw if isinstance(raw, list) else [raw]] *)
Definition as_list (raw : value) : list value :=
  match raw with VList l => l | _ => [raw] end.

(** The items a [for] loop sees. *)
Definition py_iter (v : value) : M (list value) :=
  match v with
  | VList l => ret l
  | VStr s => ret (map (fun c => VStr (String c EmptyString)) (list_ascii_of_string s))
  | VBytes b => ret (map (fun x => VInt (Z.of_N (Byte.to_N x))) b)
  | VDict d => ret (map (fun kv => VStr (fst kv)) d)
  | _ => raise TypeError
  end.

(** ** base64 and UTF-8 *)

Definition b64_alphabet : list byte :=
  list_byte_of_string
    "ABCDEFGHIJKLMNOPQRSTUVWXYZabcdefghijklmnopqrstuvwxyz0123456789+/".

Definition b64_pad : byte := "="%byte.

Definition b64_char (sextet : N) : byte :=
  nth (N.to_nat sextet) b64_alphabet b64_pad.

(** [base64.b64encode]: three bytes give four characters, a last group of
    one or two bytes is padded with [=]. *)
Fixpoint b64encode (bs : list byte) : list byte :=
  match bs with
  | [] => []
  | a :: [] =>
      let a := Byte.to_N a in
      [ b64_char (N.shiftr a 2);
        b64_char (N.shiftl (N.land a 3) 4);
        b64_pad; b64_pad ]
  | a :: b :: [] =>
      let a := Byte.to_N a in
      let b := Byte.to_N b in
      [ b64_char (N.shiftr a 2);
        b64_char (N.lor (N.shiftl (N.land a 3) 4) (N.shiftr b 4));
        b64_char (N.shiftl (N.land b 15) 2);
        b64_pad ]
  | a :: b :: c :: rest =>
      let a := Byte.to_N a in
      let b := Byte.to_N b in
      let c := Byte.to_N c in
      b64_char (N.shiftr a 2)
      :: b64_char (N.lor (N.shiftl (N.land a 3) 4) (N.shiftr b 4))
      :: b64_char (N.lor (N.shiftl (N.land b 15) 2) (N.shiftr c 6))
      :: b64_char (N.land c 63)
      :: b64encode rest
  end.

Definition in_range (lo hi : N) (b : byte) : bool :=
  ((lo <=? Byte.to_N b) && (Byte.to_N b <=? hi))%N.

Definition is_cont (b : byte) : bool := in_range 128 191 b.

(** Well-formed UTF-8 byte sequences: no overlong forms, no surrogates,
    nothing above U+10FFFF. *)
Fixpoint utf8_valid (bs : list byte) : bool :=
  match bs with
  | [] => true
  | b0 :: r0 =>
      if in_range 0 127 b0 then utf8_valid r0
      else
        match r0 with
        | [] => false
        | b1 :: r1 =>
            if in_range 194 223 b0 then is_cont b1 && utf8_valid r1
            else
              match r1 with
              | [] => false
              | b2 :: r2 =>
                  if in_range 224 239 b0 then
                    (if in_range 224 224 b0 then in_range 160 191 b1
                     else if in_range 237 237 b0 then in_range 128 159 b1
                     else is_cont b1)
                    && is_cont b2 && utf8_valid r2
                  else
                    match r2 with
                    | [] => false
                    | b3 :: r3 =>
                        in_range 240 244 b0
                        && (if in_range 240 240 b0 then in_range 144 191 b1
                            else if in_range 244 244 b0 then in_range 128 143 b1
                            else is_cont b1)
                        && is_cont b2 && is_cont b3 && utf8_valid r3
                    end
              end
        end
  end.

(** [bs.decode('utf-8')]: a Python text string is kept as its UTF-8 bytes,
    [None] stands for [UnicodeDecodeError]. *)
Definition decode_utf8 (bs : list byte) : option string :=
  if utf8_valid bs then Some (string_of_list_byte bs) else None.

(** ** The validators *)

Section Validators.
Context {C : Collaborators}.

(** [a and b] and [not a] on conditions that read the namespace: the right
    operand of [and] is only evaluated when the left one holds. *)
Definition and_then (a b : M bool) : M bool :=
  let* x := a in if x then b else ret false.

Definition not_ (a : M bool) : M bool :=
  let* x := a in ret (negb x).

Definition attr_truthy (name : string) : M bool :=
  let* v := getattr name in ret (truthy v).

Definition attr_is_none (name : string) : M bool :=
  let* v := getattr name in ret (is_none v).

Definition attr_eq (name lit : string) : M bool :=
  let* v := getattr name in ret (eq_str v lit).

(** [if c: body] where the condition reads the namespace. *)
Definition if_ (c : M bool) (body : M unit) : M unit :=
  let* x := c in when x body.

Definition _generate_lb_subproperty_id
    (resource_group load_balancer_name child_type child_name : value)
    (subscription : value) : string :=
  resource_id {|
    kw_subscription :=
      if truthy subscription then subscription else VStr get_subscription_id;
    kw_resource_group := resource_group;
    kw_namespace := VStr "Microsoft.Network";
    kw_type := VStr "loadBalancers";
    kw_name := load_balancer_name;
    kw_child_type := Some child_type;
    kw_child_name := Some child_name |}.

(** The body of the [for item in raw] loop, with [result] as accumulator. *)
Fixpoint lb_id_loop (subscription lb_name child_type : value)
    (raw result : list value) : M (list value) :=
  match raw with
  | [] => ret result
  | item :: rest =>
      if is_valid_resource_id item then
        lb_id_loop subscription lb_name child_type rest
          (result ++ [VDict [("id", item)]])
      else if negb (truthy lb_name) then
        raise (CLIError ("Unable to process " ++ str_of item
                         ++ ". Please supply a well-formed ID or --lb-name."))
      else
        let* rg := getattr "resource_group_name" in
        lb_id_loop subscription lb_name child_type rest
          (result ++ [VDict [("id",
             VStr (_generate_lb_subproperty_id rg lb_name child_type item
                     subscription))]])
  end.

Definition _generate_lb_id_list_from_names_or_ids
    (prop : string) (child_type : string) : M unit :=
  let* raw := getattr prop in
  if negb (truthy raw) then ret tt
  else
    let raw := as_list raw in
    let subscription := VStr get_subscription_id in
    let* lb_name := getattr "load_balancer_name" in
    let* result := lb_id_loop subscription lb_name (VStr child_type) raw [] in
    setattr prop (VList result).

Definition validate_inbound_nat_rule_id_list : M unit :=
  _generate_lb_id_list_from_names_or_ids
    "load_balancer_inbound_nat_rule_ids" "inboundNatRules".

Definition validate_address_pool_id_list : M unit :=
  _generate_lb_id_list_from_names_or_ids
    "load_balancer_backend_address_pool_ids" "backendAddressPools".

Definition validate_inbound_nat_rule_name_or_id : M unit :=
  let* rule_name := getattr "inbound_nat_rule" in
  let* lb_name := getattr "load_balancer_name" in
  if is_valid_resource_id rule_name then
    when (truthy lb_name)
      (raise (CLIError
         "Please omit --lb-name when specifying an inbound NAT rule ID."))
  else
    when (negb (truthy lb_name))
      (raise (CLIError
         "Please specify --lb-name when specifying an inbound NAT rule name."));;
    let* rg := getattr "resource_group_name" in
    setattr "inbound_nat_rule"
      (VStr (_generate_lb_subproperty_id rg lb_name (VStr "inboundNatRules")
               rule_name VNone)).

Definition validate_address_pool_name_or_id : M unit :=
  let* pool_name := getattr "backend_address_pool" in
  let* lb_name := getattr "load_balancer_name" in
  if is_valid_resource_id pool_name then
    when (truthy lb_name)
      (raise (CLIError
         "Please omit --lb-name when specifying an address pool ID."))
  else
    when (negb (truthy lb_name))
      (raise (CLIError
         "Please specify --lb-name when specifying an address pool name."));;
    let* rg := getattr "resource_group_name" in
    setattr "backend_address_pool"
      (VStr (_generate_lb_subproperty_id rg lb_name
               (VStr "backendAddressPools") pool_name VNone)).

Definition validate_subnet_name_or_id : M unit :=
  let* both_none :=
    and_then (attr_is_none "virtual_network_name") (attr_is_none "subnet") in
  if both_none then ret tt
  else
    let* empty := attr_eq "subnet" "" in
    if empty then ret tt
    else
      if_ (and_then (attr_truthy "virtual_network_name")
                    (not_ (attr_truthy "subnet")))
        (raise (CLIError
           "You must specify --subnet name when using --vnet-name."));;
      let* subnet := getattr "subnet" in
      let is_id := is_valid_resource_id subnet in
      let* vnet_given :=
        and_then (ret is_id) (attr_truthy "virtual_network_name") in
      (if vnet_given then
         raise (ArgumentError
           "Please omit --vnet-name when specifying a subnet ID")
       else
         if_ (and_then (ret (negb is_id))
                       (not_ (attr_truthy "virtual_network_name")))
           (raise (ArgumentError
              "Please specify --vnet-name when specifying a subnet name")));;
      when (negb is_id)
        (let* rg := getattr "resource_group_name" in
         let* vnet := getattr "virtual_network_name" in
         let* name := getattr "subnet" in
         setattr "subnet"
           (VStr (resource_id {|
              kw_subscription := VStr get_subscription_id;
              kw_resource_group := rg;
              kw_namespace := VStr "Microsoft.Network";
              kw_type := VStr "virtualNetworks";
              kw_name := vnet;
              kw_child_type := Some (VStr "subnets");
              kw_child_name := Some name |}))).

Definition validate_public_ip_name_or_id : M unit :=
  if_ (attr_truthy "public_ip_address")
    (let* pip := getattr "public_ip_address" in
     let is_id := is_valid_resource_id pip in
     when (negb is_id)
       (let* rg := getattr "resource_group_name" in
        let* name := getattr "public_ip_address" in
        setattr "public_ip_address"
          (VStr (resource_id {|
             kw_subscription := VStr get_subscription_id;
             kw_resource_group := rg;
             kw_namespace := VStr "Microsoft.Network";
             kw_type := VStr "publicIPAddresses";
             kw_name := name;
             kw_child_type := None;
             kw_child_name := None |})))).

Definition validate_public_ip_type : M unit :=
  if_ (attr_truthy "subnet")
    (setattr "public_ip_address_type" (VStr "none");;
     if_ (attr_truthy "public_ip_address")
       (raise (ArgumentError
          "Cannot specify --subnet and --public-ip-address when creating a load balancer.")));;
  if_ (attr_truthy "public_ip_address")
    (if_ (and_then (attr_truthy "public_ip_dns_name")
                   (not_ (attr_eq "public_ip_address_type" "new")))
       (raise (ArgumentError
          "Can only specify --public-ip-dns-name when creating a new public IP address."))).

Definition validate_nsg_name_or_id : M unit :=
  if_ (attr_truthy "network_security_group")
    (let* nsg := getattr "network_security_group" in
     let is_id := is_valid_resource_id nsg in
     when (negb is_id)
       (let* rg := getattr "resource_group_name" in
        let* name := getattr "network_security_group" in
        setattr "network_security_group"
          (VStr (resource_id {|
             kw_subscription := VStr get_subscription_id;
             kw_resource_group := rg;
             kw_namespace := VStr "Microsoft.Network";
             kw_type := VStr "networkSecurityGroups";
             kw_name := name;
             kw_child_type := None;
             kw_child_name := None |})))).

Definition validate_address_prefixes : M unit :=
  let* sp := getattr "subnet_address_prefix" in
  let* subnet_prefix_set := py_in SPECIFIED_SENTINEL sp in
  let* vp := getattr "vnet_address_prefix" in
  let* vnet_prefix_set := py_in SPECIFIED_SENTINEL vp in
  let* sp := getattr "subnet_address_prefix" in
  let* sp' := py_replace sp SPECIFIED_SENTINEL "" in
  setattr "subnet_address_prefix" sp';;
  let* vp := getattr "vnet_address_prefix" in
  let* vp' := py_replace vp SPECIFIED_SENTINEL "" in
  setattr "vnet_address_prefix" vp';;
  if_ (and_then (not_ (attr_eq "subnet_type" "new"))
                (ret (subnet_prefix_set || vnet_prefix_set)))
    (let* subnet := getattr "subnet" in
     raise (CLIError ("Existing subnet (" ++ str_of subnet
                      ++ ") found. Cannot specify address prefixes when reusing an existing subnet."))).

(** The body of the loop of [validate_servers]. *)
Fixpoint servers_loop (items servers : list value) : M (list value) :=
  match items with
  | [] => ret servers
  | item :: rest =>
      match item with
      | VStr s =>
          if inet_aton s
          then servers_loop rest (servers ++ [VDict [("IpAddress", item)]])
          else servers_loop rest (servers ++ [VDict [("Fqdn", item)]])
      | _ => raise TypeError
      end
  end.

Definition validate_servers : M unit :=
  let* given := attr_truthy "servers" in
  let* source := (if given then getattr "servers" else ret (VList [])) in
  let* items := py_iter source in
  let* servers := servers_loop items [] in
  setattr "servers" (VList servers).

Definition validate_cert : M unit :=
  let* cert_data := getattr "cert_data" in
  let* cert_password := getattr "cert_password" in
  let params := [cert_data; cert_password] in
  if forallb (fun x => negb (truthy x)) params then
    setattr "http_listener_protocol" (VStr "http");;
    if_ (not_ (attr_truthy "frontend_port"))
      (setattr "frontend_port" (VInt 80))
  else
    when (negb (forallb truthy params))
      (raise (ArgumentError
         "To use SSL certificate, you must specify both the filename and password"));;
    let* path := getattr "cert_data" in
    match open_rb path with
    | None => raise IOError
    | Some contents =>
        let base64_data := b64encode contents in
        match decode_utf8 base64_data with
        | Some text => setattr "cert_data" (VStr text)
        | None => setattr "cert_data" (VStr (str_of (VBytes base64_data)))
        end;;
        setattr "http_listener_protocol" (VStr "https");;
        if_ (not_ (attr_truthy "frontend_port"))
          (setattr "frontend_port" (VInt 443))
    end.

Definition process_lb_create_namespace : M unit :=
  if_ (attr_truthy "public_ip_dns_name")
    (setattr "dns_name_type" (VStr "new"));;
  if_ (and_then (attr_truthy "subnet") (attr_truthy "public_ip_address"))
    (raise (ArgumentError
       "Must specify a subnet OR a public IP address, not both.")).

End Validators.

(** ** A concrete set of collaborators

    Used to run the validators on concrete namespaces. *)

Module Model.

Fixpoint split_on (sep : ascii) (s : string) : list string :=
  match s with
  | EmptyString => [EmptyString]
  | String c r =>
      if Ascii.eqb c sep then EmptyString :: split_on sep r
      else
        match split_on sep r with
        | h :: t => String c h :: t
        | [] => [String c EmptyString]
        end
  end.

(** [str(x)] of the values that occur as names; containers are shown by
    their items, strings inside them in single quotes without escapes. *)
Fixpoint py_str (quote : bool) (v : value) : string :=
  match v with
  | VNone => "None"
  | VBool b => if b then "True" else "False"
  | VInt n => pretty n
  | VStr s => if quote then "'" ++ s ++ "'" else s
  | VBytes b => "b'" ++ string_of_list_byte b ++ "'"
  | VList l =>
      "[" ++ String.concat ", " (map (py_str true) l) ++ "]"
  | VDict d =>
      "{" ++ String.concat ", "
               (map (fun kv => ("'" ++ fst kv ++ "': " ++ py_str true (snd kv))%string) d)
          ++ "}"
  end.

(** Modelled from the spec: resource_id, of the resource-identifier library
    (azure.cli.commands.arm), builds the path
    /subscriptions/{sub}/resourceGroups/{rg}/providers/{namespace}/{type}/{name}
    followed by /{childType}/{childName} when a child is given. *)
Definition resource_id (kw : rid_kwargs) : string :=
  "/subscriptions/" ++ py_str false (kw_subscription kw)
  ++ "/resourceGroups/" ++ py_str false (kw_resource_group kw)
  ++ "/providers/" ++ py_str false (kw_namespace kw)
  ++ "/" ++ py_str false (kw_type kw)
  ++ "/" ++ py_str false (kw_name kw)
  ++ match kw_child_type kw, kw_child_name kw with
     | Some ct, Some cn => "/" ++ py_str false ct ++ "/" ++ py_str false cn
     | _, _ => ""
     end.

(** Modelled from the spec: is_valid_resource_id, of the same library,
    recognises the strings that have the shape of the path above: the fixed
    segments in place and five or seven free segments without a slash. *)
Definition is_valid_resource_id (v : value) : bool :=
  match v with
  | VStr s =>
      match split_on "/" s with
      | lead :: k1 :: _ :: k2 :: _ :: k3 :: _ :: _ :: _ :: rest =>
          String.eqb lead "" && String.eqb k1 "subscriptions"
          && String.eqb k2 "resourceGroups" && String.eqb k3 "providers"
          && match rest with [] | [_; _] => true | _ => false end
      | _ => false
      end
  | _ => false
  end.

(** Modelled from the spec: get_subscription_id, of the session context,
    supplies the identifier of the active subscription. *)
Definition get_subscription_id : string :=
  "00000000-0000-0000-0000-000000000000".

(** The address forms of inet(3) that [socket.inet_aton] accepts: one to
    four numbers separated by dots, each in C notation (decimal, octal with
    a leading 0, hexadecimal with a leading 0x); all but the last are at
    most 255 and the last fills the remaining bytes.  Anything after the
    first white space is ignored. *)
Definition is_space (c : ascii) : bool :=
  let n := nat_of_ascii c in
  Nat.eqb n 32 || (Nat.leb 9 n && Nat.leb n 13).

Fixpoint until_space (s : string) : string :=
  match s with
  | EmptyString => EmptyString
  | String c r => if is_space c then EmptyString else String c (until_space r)
  end.

Definition digit_of (c : ascii) : option N :=
  let n := N_of_ascii c in
  if ((48 <=? n) && (n <=? 57))%N then Some (n - 48)%N
  else if ((97 <=? n) && (n <=? 102))%N then Some (n - 87)%N
  else if ((65 <=? n) && (n <=? 70))%N then Some (n - 55)%N
  else None.

Fixpoint number_in (base : N) (s : string) (acc : N) : option N :=
  match s with
  | EmptyString => Some acc
  | String c r =>
      match digit_of c with
      | Some d =>
          if (d <? base)%N then number_in base r (acc * base + d)%N else None
      | None => None
      end
  end.

Definition c_number (s : string) : option N :=
  match s with
  | EmptyString => None
  | String c0 (String c1 r) =>
      if Ascii.eqb c0 "0" then
        if Ascii.eqb c1 "x" || Ascii.eqb c1 "X" then
          match r with
          | EmptyString => None
          | _ => number_in 16 r 0
          end
        else number_in 8 (String c1 r) 0
      else number_in 10 s 0
  | _ => number_in 10 s 0
  end.

Definition at_most (bound : N) (o : option N) : bool :=
  match o with Some n => (n <=? bound)%N | None => false end.

Definition inet_aton (s : string) : bool :=
  match map c_number (split_on "." (until_space s)) with
  | [a] => at_most 4294967295 a
  | [a; b] => at_most 255 a && at_most 16777215 b
  | [a; b; c] => at_most 255 a && at_most 255 b && at_most 65535 c
  | [a; b; c; d] =>
      at_most 255 a && at_most 255 b && at_most 255 c && at_most 255 d
  | _ => false
  end.

(** A file system with one certificate file. *)
Definition open_rb (path : value) : option (list byte) :=
  match path with
  | VStr p =>
      if String.eqb p "cert.pfx" then Some (list_byte_of_string "foobar")
      else None
  | _ => None
  end.

#[export] Instance collaborators : Collaborators :=
  Build_Collaborators
    is_valid_resource_id resource_id get_subscription_id (py_str false)
    inet_aton open_rb.

End Model.




(** ** The scalar name-or-id validators as one family

    The five scalar validators follow one pattern and differ in the
    attribute they resolve, the attribute that names the parent resource
    and the type segments of the identifier. *)

Inductive resolver : Type :=
| InboundNatRule
| AddressPool
| Subnet
| PublicIp
| Nsg.

Definition run_resolver `{Collaborators} (r : resolver) : M unit :=
  match r with
  | InboundNatRule => validate_inbound_nat_rule_name_or_id
  | AddressPool => validate_address_pool_name_or_id
  | Subnet => validate_subnet_name_or_id
  | PublicIp => validate_public_ip_name_or_id
  | Nsg => validate_nsg_name_or_id
  end.

Definition id_field (r : resolver) : string :=
  match r with
  | InboundNatRule => "inbound_nat_rule"
  | AddressPool => "backend_address_pool"
  | Subnet => "subnet"
  | PublicIp => "public_ip_address"
  | Nsg => "network_security_group"
  end.

(** The attribute that holds the name of the parent resource, for the
    validators of child resources. *)
Definition parent_field (r : resolver) : option string :=
  match r with
  | InboundNatRule | AddressPool => Some "load_balancer_name"
  | Subnet => Some "virtual_network_name"
  | PublicIp | Nsg => None
  end.

Definition has_parent (r : resolver) : bool :=
  match parent_field r with Some _ => true | None => false end.

(** The value of the parent attribute; the validators of top-level
    resources read none, which is rendered as [VNone]. *)
Definition parent_value (r : resolver) (ns : namespace) : option value :=
  match parent_field r with
  | Some f => ns !! f
  | None => Some VNone
  end.

(** The error of a child validator that is given an identifier together
    with the name of the parent. *)
Definition omit_error (r : resolver) : exn :=
  match r with
  | InboundNatRule =>
      CLIError "Please omit --lb-name when specifying an inbound NAT rule ID."
  | AddressPool =>
      CLIError "Please omit --lb-name when specifying an address pool ID."
  | _ => ArgumentError "Please omit --vnet-name when specifying a subnet ID"
  end.

(** The error of a child validator that is given a name without the name of
    the parent. *)
Definition missing_error (r : resolver) : exn :=
  match r with
  | InboundNatRule =>
      CLIError "Please specify --lb-name when specifying an inbound NAT rule name."
  | AddressPool =>
      CLIError "Please specify --lb-name when specifying an address pool name."
  | _ => ArgumentError "Please specify --vnet-name when specifying a subnet name"
  end.

Definition parent_flag (r : resolver) : string :=
  match r with
  | InboundNatRule | AddressPool => "--lb-name"
  | _ => "--vnet-name"
  end.

Definition exn_message (e : exn) : string :=
  match e with
  | CLIError m | ArgumentError m => m
  | AttributeError n => n
  | _ => ""
  end.

Definition is_cli_error (e : exn) : bool :=
  match e with CLIError _ => true | _ => false end.

(** The documented path of an identifier, written out from the template
    /subscriptions/{sub}/resourceGroups/{rg}/providers/{provider}/{type}/{name}
    with an optional /{childType}/{childName}. *)
Definition id_path (sub rg provider type name : string)
    (child : option (string * string)) : string :=
  "/subscriptions/" ++ sub ++ "/resourceGroups/" ++ rg
  ++ "/providers/" ++ provider ++ "/" ++ type ++ "/" ++ name
  ++ match child with
     | Some (ct, cn) => "/" ++ ct ++ "/" ++ cn
     | None => ""
     end.

(** [resource_id] follows the documented template on string arguments. *)
Definition follows_template `{Collaborators} : Prop :=
  ∀ sub rg provider type name : string,
    resource_id {|
      kw_subscription := VStr sub; kw_resource_group := VStr rg;
      kw_namespace := VStr provider; kw_type := VStr type;
      kw_name := VStr name; kw_child_type := None; kw_child_name := None |}
    = id_path sub rg provider type name None
    ∧ ∀ ct cn : string,
        resource_id {|
          kw_subscription := VStr sub; kw_resource_group := VStr rg;
          kw_namespace := VStr provider; kw_type := VStr type;
          kw_name := VStr name; kw_child_type := Some (VStr ct);
          kw_child_name := Some (VStr cn) |}
        = id_path sub rg provider type name (Some (ct, cn)).

(** The identifier a validator is documented to build for the name [name]
    in resource group [rg], under the parent [parent] for child resources. *)
Definition expected_id `{Collaborators} (r : resolver)
    (rg parent name : string) : string :=
  let path := id_path get_subscription_id rg "Microsoft.Network" in
  match r with
  | InboundNatRule => path "loadBalancers" parent (Some ("inboundNatRules", name))
  | AddressPool => path "loadBalancers" parent (Some ("backendAddressPools", name))
  | Subnet => path "virtualNetworks" parent (Some ("subnets", name))
  | PublicIp => path "publicIPAddresses" name None
  | Nsg => path "networkSecurityGroups" name None
  end.

(** The two list-valued validators. *)
Inductive list_resolver : Type :=
| InboundNatRuleIds
| AddressPoolIds.

Definition run_list_resolver `{Collaborators} (r : list_resolver) : M unit :=
  match r with
  | InboundNatRuleIds => validate_inbound_nat_rule_id_list
  | AddressPoolIds => validate_address_pool_id_list
  end.

Definition list_field (r : list_resolver) : string :=
  match r with
  | InboundNatRuleIds => "load_balancer_inbound_nat_rule_ids"
  | AddressPoolIds => "load_balancer_backend_address_pool_ids"
  end.

Definition list_child_type (r : list_resolver) : string :=
  match r with
  | InboundNatRuleIds => "inboundNatRules"
  | AddressPoolIds => "backendAddressPools"
  end.

(** The entry the list validators build for one item. *)
Definition wrap_id `{Collaborators} (child_type : string) (rg lb : value)
    (item : value) : value :=
  VDict [("id",
    if is_valid_resource_id item then item
    else VStr (_generate_lb_subproperty_id rg lb (VStr child_type) item
                 (VStr get_subscription_id)))].

(** ** Notions used to state the properties *)

(** The parent name that a child validator needs is given: the parent
    attribute holds a non-empty string.  Nothing is asked of the validators
    of top-level resources. *)
Definition parent_named (r : resolver) (ns : namespace) (parent : string) : Prop :=
  match parent_field r with
  | Some f => ns !! f = Some (VStr parent) ∧ parent ≠ ""
  | None => True
  end.

(** The error of the list-valued validators for an item that is a name. *)
Definition unable_to_process {C : Collaborators} (item : value) : exn :=
  CLIError ("Unable to process " ++ str_of item
            ++ ". Please supply a well-formed ID or --lb-name.").

(** The error of [validate_address_prefixes]. *)
Definition existing_subnet_error {C : Collaborators} (subnet : value) : exn :=
  CLIError ("Existing subnet (" ++ str_of subnet
            ++ ") found. Cannot specify address prefixes when reusing an existing subnet.").

(** The error of [validate_cert]. *)
Definition cert_error : exn :=
  ArgumentError
    "To use SSL certificate, you must specify both the filename and password".

(** A value as the argument parser leaves it: the raw text, or the marker
    followed by the raw text, where the raw text is free of the marker. *)
Definition plain_or_marked (s : string) : Prop :=
  ∃ raw, contains SPECIFIED_SENTINEL raw = false
         ∧ (s = raw ∨ s = (SPECIFIED_SENTINEL ++ raw)%string).

(** The entry [validate_servers] builds for one server. *)
Definition classify {C : Collaborators} (s : string) : value :=
  VDict [(if inet_aton s then "IpAddress" else "Fqdn", VStr s)].

(** [if not namespace.frontend_port: namespace.frontend_port = port] *)
Definition default_port (port : Z) (fp : value) (ns : namespace) : namespace :=
  if truthy fp then ns else <["frontend_port" := VInt port]> ns.

(** ** Concrete namespaces *)

Module Examples.

Definition rule_id : string :=
  "/subscriptions/00000000-0000-0000-0000-000000000000/resourceGroups/rg1/providers/Microsoft.Network/loadBalancers/lb1/inboundNatRules/rule1".

Definition rule2_id : string :=
  "/subscriptions/00000000-0000-0000-0000-000000000000/resourceGroups/rg1/providers/Microsoft.Network/loadBalancers/lb1/inboundNatRules/rule2".

Definition pool_id : string :=
  "/subscriptions/00000000-0000-0000-0000-000000000000/resourceGroups/rg1/providers/Microsoft.Network/loadBalancers/lb1/backendAddressPools/pool1".

Definition subnet_id : string :=
  "/subscriptions/00000000-0000-0000-0000-000000000000/resourceGroups/rg1/providers/Microsoft.Network/virtualNetworks/vnet1/subnets/subnet1".

Definition public_ip_id : string :=
  "/subscriptions/00000000-0000-0000-0000-000000000000/resourceGroups/rg1/providers/Microsoft.Network/publicIPAddresses/ip1".

(** [az network lb inbound-nat-rule ...] with the rule given by identifier
    and the load balancer named as well. *)
Definition ns_rule_id_with_lb : namespace :=
  list_to_map [("inbound_nat_rule", VStr rule_id);
               ("load_balancer_name", VStr "lb1");
               ("resource_group_name", VStr "rg1")].

(** A subnet given by identifier, no virtual-network name. *)
Definition ns_subnet_id : namespace :=
  list_to_map [("subnet", VStr subnet_id);
               ("virtual_network_name", VNone);
               ("resource_group_name", VStr "rg1")].

(** A subnet given by identifier together with a virtual-network name. *)
Definition ns_subnet_id_with_vnet : namespace :=
  list_to_map [("subnet", VStr subnet_id);
               ("virtual_network_name", VStr "vnet1");
               ("resource_group_name", VStr "rg1")].

(** A subnet given by name, no virtual-network name. *)
Definition ns_subnet_name_no_vnet : namespace :=
  list_to_map [("subnet", VStr "subnet1");
               ("virtual_network_name", VNone);
               ("resource_group_name", VStr "rg1")].

(** An address pool given by name, with its load balancer. *)
Definition ns_pool_name : namespace :=
  list_to_map [("backend_address_pool", VStr "pool1");
               ("load_balancer_name", VStr "lb1");
               ("resource_group_name", VStr "rg1")].

Definition ns_pool_resolved : namespace :=
  <["backend_address_pool" := VStr pool_id]> ns_pool_name.

(** An address pool given by name, without a load balancer. *)
Definition ns_pool_name_no_lb : namespace :=
  list_to_map [("backend_address_pool", VStr "pool1");
               ("load_balancer_name", VNone);
               ("resource_group_name", VStr "rg1")].

(** A public IP address given by name. *)
Definition ns_public_ip_name : namespace :=
  list_to_map [("public_ip_address", VStr "ip1");
               ("resource_group_name", VStr "rg1")].

Definition ns_public_ip_resolved : namespace :=
  <["public_ip_address" := VStr public_ip_id]> ns_public_ip_name.

(** A public IP address given by a name with a slash in it, the identifier
    built from it, and the identifier built from that identifier. *)
Definition ns_public_ip_slash : namespace :=
  list_to_map [("public_ip_address", VStr "a/b");
               ("resource_group_name", VStr "rg1")].

Definition slash_id : string :=
  "/subscriptions/00000000-0000-0000-0000-000000000000/resourceGroups/rg1/providers/Microsoft.Network/publicIPAddresses/a/b".

Definition slash_id_twice : string :=
  "/subscriptions/00000000-0000-0000-0000-000000000000/resourceGroups/rg1/providers/Microsoft.Network/publicIPAddresses//subscriptions/00000000-0000-0000-0000-000000000000/resourceGroups/rg1/providers/Microsoft.Network/publicIPAddresses/a/b".

(** NAT rules given as a list of an identifier and a name. *)
Definition ns_rule_list : namespace :=
  list_to_map [("load_balancer_inbound_nat_rule_ids",
                VList [VStr rule_id; VStr "rule2"]);
               ("load_balancer_name", VStr "lb1");
               ("resource_group_name", VStr "rg1")].

Definition ns_rule_list_no_lb : namespace :=
  list_to_map [("load_balancer_inbound_nat_rule_ids",
                VList [VStr rule_id; VStr "rule2"]);
               ("load_balancer_name", VNone);
               ("resource_group_name", VStr "rg1")].

(** An application gateway with a certificate file and a password. *)
Definition ns_cert : namespace :=
  list_to_map [("cert_data", VStr "cert.pfx");
               ("cert_password", VStr "secret");
               ("frontend_port", VNone)].

Definition ns_servers : namespace :=
  list_to_map [("servers", VList [VStr "10.0.0.5"; VStr "db.example.com"])].


(** Both prefixes given explicitly for a new subnet. *)
Definition ns_prefixes : namespace :=
  list_to_map [("subnet_address_prefix", VStr "__SET__10.0.0.0/24");
               ("vnet_address_prefix", VStr "10.0.0.0/16");
               ("subnet_type", VStr "existing");
               ("subnet", VStr "subnet1")].

(** The virtual-network prefix given explicitly as [__SE__SET__T__]. *)
Definition ns_prefixes_nested : namespace :=
  list_to_map [("subnet_address_prefix", VStr "10.0.0.0/24");
               ("vnet_address_prefix", VStr "__SET____SE__SET__T__");
               ("subnet_type", VStr "new");
               ("subnet", VStr "subnet1")].

(** A load balancer with both a subnet and a public IP address. *)
Definition ns_gateway : namespace :=
  list_to_map [("subnet", VStr "subnet1");
               ("public_ip_address", VStr "ip1");
               ("public_ip_dns_name", VNone);
               ("public_ip_address_type", VStr "new")].

End Examples.

(** ** The remaining validators *)

Section MoreValidators.
Context {C : Collaborators}.

Definition validate_private_ip_address : M unit :=
  if_ (attr_truthy "private_ip_address")
    (setattr "private_ip_address_allocation" (VStr "static")).

Definition process_app_gateway_namespace : M unit :=
  (let* public_ip := attr_truthy "public_ip" in
   if public_ip then setattr "frontend_type" (VStr "publicIp")
   else
     setattr "frontend_type" (VStr "privateIp");;
     let* given := attr_truthy "private_ip_address" in
     setattr "private_ip_address_allocation"
       (VStr (if given then "static" else "dynamic")));;
  if_ (not_ (attr_truthy "public_ip_type"))
    (setattr "public_ip_type" (VStr "none")).

Definition process_nic_create_namespace : M unit :=
  if_ (attr_truthy "internal_dns_name_label")
    (setattr "use_dns_settings" (VStr "true"));;
  if_ (not_ (attr_truthy "public_ip_address"))
    (setattr "public_ip_address_type" (VStr "none"));;
  if_ (not_ (attr_truthy "network_security_group"))
    (setattr "network_security_group_type" (VStr "none")).

Definition process_public_ip_create_namespace : M unit :=
  if_ (attr_truthy "dns_name")
    (setattr "public_ip_address_type" (VStr "dns")).

(** [markSpecifiedAction.__call__]: [dest] is the attribute of the option,
    [values] what the user gave for it. *)
Definition markSpecifiedAction_call (dest : string) (values : value) : M unit :=
  setattr dest (VStr ("__SET__" ++ str_of values)).

End MoreValidators.

(** ** All validators of the module *)

Inductive validator : Type :=
| InboundNatRuleIdList
| AddressPoolIdList
| InboundNatRuleNameOrId
| AddressPoolNameOrId
| SubnetNameOrId
| PrivateIpAddress
| PublicIpNameOrId
| PublicIpType
| NsgNameOrId
| AddressPrefixes
| Servers
| Cert
| AppGatewayNamespace
| LbCreateNamespace
| NicCreateNamespace
| PublicIpCreateNamespace.

Definition run_validator {C : Collaborators} (v : validator) : M unit :=
  match v with
  | InboundNatRuleIdList => validate_inbound_nat_rule_id_list
  | AddressPoolIdList => validate_address_pool_id_list
  | InboundNatRuleNameOrId => validate_inbound_nat_rule_name_or_id
  | AddressPoolNameOrId => validate_address_pool_name_or_id
  | SubnetNameOrId => validate_subnet_name_or_id
  | PrivateIpAddress => validate_private_ip_address
  | PublicIpNameOrId => validate_public_ip_name_or_id
  | PublicIpType => validate_public_ip_type
  | NsgNameOrId => validate_nsg_name_or_id
  | AddressPrefixes => validate_address_prefixes
  | Servers => validate_servers
  | Cert => validate_cert
  | AppGatewayNamespace => process_app_gateway_namespace
  | LbCreateNamespace => process_lb_create_namespace
  | NicCreateNamespace => process_nic_create_namespace
  | PublicIpCreateNamespace => process_public_ip_create_namespace
  end.

(** The attributes a validator assigns to. *)
Definition assigned (v : validator) : list string :=
  match v with
  | InboundNatRuleIdList => ["load_balancer_inbound_nat_rule_ids"]
  | AddressPoolIdList => ["load_balancer_backend_address_pool_ids"]
  | InboundNatRuleNameOrId => ["inbound_nat_rule"]
  | AddressPoolNameOrId => ["backend_address_pool"]
  | SubnetNameOrId => ["subnet"]
  | PrivateIpAddress => ["private_ip_address_allocation"]
  | PublicIpNameOrId => ["public_ip_address"]
  | PublicIpType => ["public_ip_address_type"]
  | NsgNameOrId => ["network_security_group"]
  | AddressPrefixes => ["subnet_address_prefix"; "vnet_address_prefix"]
  | Servers => ["servers"]
  | Cert => ["cert_data"; "http_listener_protocol"; "frontend_port"]
  | AppGatewayNamespace =>
      ["frontend_type"; "private_ip_address_allocation"; "public_ip_type"]
  | LbCreateNamespace => ["dns_name_type"]
  | NicCreateNamespace =>
      ["use_dns_settings"; "public_ip_address_type";
       "network_security_group_type"]
  | PublicIpCreateNamespace => ["public_ip_address_type"]
  end.

(** The validators that assign only as their last step. *)
Definition assigns_last (v : validator) : bool :=
  match v with
  | InboundNatRuleIdList | AddressPoolIdList | InboundNatRuleNameOrId
  | AddressPoolNameOrId | SubnetNameOrId | PrivateIpAddress
  | PublicIpNameOrId | NsgNameOrId | Servers | PublicIpCreateNamespace => true
  | _ => false
  end.

(** [ns'] differs from [ns] at most by assignments to the attributes [W]:
    every other attribute is as in [ns], and no attribute is lost. *)
Definition assigned_within (W : list string) (ns ns' : namespace) : Prop :=
  (∀ k, k ∉ W -> ns' !! k = ns !! k)
  ∧ (∀ k, is_Some (ns !! k) -> is_Some (ns' !! k)).

Definition writes_only {A} (W : list string) (c : M A) : Prop :=
  ∀ ns, assigned_within W ns (snd (c ns)).

Definition read_only {A} (c : M A) : Prop :=
  ∀ ns, snd (c ns) = ns.

(** A computation that raises leaves the namespace as it found it. *)
Definition atomic {A} (c : M A) : Prop :=
  ∀ ns, raised (fst (c ns)) = true -> snd (c ns) = ns.

Definition is_str (v : value) : bool :=
  match v with VStr _ => true | _ => false end.

(** The validators that only derive attributes from other attributes. *)
Definition derives (v : validator) : bool :=
  match v with
  | PrivateIpAddress | PublicIpType | AppGatewayNamespace | LbCreateNamespace
  | NicCreateNamespace | PublicIpCreateNamespace => true
  | _ => false
  end.

(** ** Reading base64 text back *)

(** The position of a character in the alphabet; 0 for any other byte. *)
Fixpoint index_of (c : byte) (l : list byte) (i : N) : N :=
  match l with
  | [] => 0%N
  | x :: r => if Byte.eqb c x then i else index_of c r (N.succ i)
  end.

Definition b64_index (c : byte) : N := index_of c b64_alphabet 0.

Definition byte_of_N (n : N) : byte :=
  match Byte.of_N n with Some b => b | None => x00 end.

(** The inverse of [b64encode]: four characters give three bytes, one or
    two when the group ends in padding. *)
Fixpoint b64decode (cs : list byte) : list byte :=
  match cs with
  | c1 :: c2 :: c3 :: c4 :: rest =>
      let i1 := b64_index c1 in
      let i2 := b64_index c2 in
      let i3 := b64_index c3 in
      let i4 := b64_index c4 in
      let b1 := byte_of_N (N.lor (N.shiftl i1 2) (N.shiftr i2 4)) in
      let b2 := byte_of_N (N.lor (N.shiftl (N.land i2 15) 4) (N.shiftr i3 2)) in
      let b3 := byte_of_N (N.lor (N.shiftl (N.land i3 3) 6) i4) in
      if Byte.eqb c3 b64_pad then [b1]
      else if Byte.eqb c4 b64_pad then [b1; b2]
      else b1 :: b2 :: b3 :: b64decode rest
  | _ => []
  end.

Definition all_bytes : list byte :=
  Eval vm_compute in map byte_of_N (map N.of_nat (seq 0 256)).

(** ** More concrete namespaces *)

Module MoreExamples.

(** A server list with an entry that is not a string. *)
Definition ns_servers_mixed : namespace :=
  list_to_map [("servers", VList [VStr "10.0.0.5"; VNone])].

(** No subnet prefix at all. *)
Definition ns_prefix_missing : namespace :=
  list_to_map [("subnet_address_prefix", VNone);
               ("vnet_address_prefix", VStr "__SET__10.0.0.0/16");
               ("subnet_type", VStr "new");
               ("subnet", VStr "subnet1")].

(** Default prefixes for a new and for a reused subnet. *)
Definition ns_prefix_defaults (subnet_type : string) : namespace :=
  list_to_map [("subnet_address_prefix", VStr "10.0.0.0/24");
               ("vnet_address_prefix", VStr "10.0.0.0/16");
               ("subnet_type", VStr subnet_type);
               ("subnet", VStr "subnet1")].

(** A certificate file that does not exist. *)
Definition ns_cert_missing : namespace :=
  list_to_map [("cert_data", VStr "missing.pfx");
               ("cert_password", VStr "secret");
               ("frontend_port", VInt 8443)].

(** A network interface without public IP address or security group. *)
Definition ns_nic : namespace :=
  list_to_map [("internal_dns_name_label", VStr "nic1");
               ("public_ip_address", VNone);
               ("network_security_group", VNone)].

(** An application gateway with a private frontend and a fixed address. *)
Definition ns_app_gateway : namespace :=
  list_to_map [("public_ip", VNone);
               ("private_ip_address", VStr "10.0.0.7");
               ("public_ip_type", VNone)].

(** A load balancer with an existing public IP address and a DNS name. *)
Definition ns_lb_dns : namespace :=
  list_to_map [("subnet", VNone);
               ("public_ip_address", VStr "ip1");
               ("public_ip_dns_name", VStr "lb1");
               ("public_ip_address_type", VStr "existing")].

End MoreExamples.

(** * Properties *)

(** ** Running a validator step by step *)

Section Monad.
Context {A B D : Type}.

Lemma bind_ret (a : A) (k : A -> M B) ns : bind (ret a) k ns = k a ns.
Proof. reflexivity. Qed.

Lemma bind_raise (e : exn) (k : A -> M B) ns : bind (raise e) k ns = (Raise e, ns).
Proof. reflexivity. Qed.

Lemma bind_bind (c : M A) (f : A -> M B) (k : B -> M D) ns :
  bind (bind c f) k ns = bind c (fun x => bind (f x) k) ns.
Proof. unfold bind. destruct (c ns) as [[a|e] ns']; reflexivity. Qed.

End Monad.

Lemma bind_getattr {B} name v (k : value -> M B) (ns : namespace) :
  ns !! name = Some v -> bind (getattr name) k ns = k v ns.
Proof. intros H. unfold bind, getattr. rewrite H. reflexivity. Qed.

Lemma bind_setattr {B} name v (k : unit -> M B) (ns : namespace) :
  bind (setattr name v) k ns = k tt (<[name := v]> ns).
Proof. reflexivity. Qed.

Lemma run_getattr name v (ns : namespace) :
  ns !! name = Some v -> getattr name ns = (Ok v, ns).
Proof. intros H. unfold getattr. rewrite H. reflexivity. Qed.

Lemma is_none_truthy v : is_none v = true -> truthy v = false.
Proof. destruct v; simpl; congruence. Qed.

Lemma eqb_empty_false s : s <> "" -> String.eqb s "" = false.
Proof. intros H. apply String.eqb_neq. exact H. Qed.

(** [mrun] runs a validator on a namespace as far as the hypotheses on its
    attributes and on the truth values of the conditions allow. *)
Ltac lookup_tac := first [eassumption | simplify_map_eq; done ].

Ltac mstep :=
  first
    [ rewrite bind_bind
    | rewrite bind_ret
    | rewrite bind_raise
    | rewrite bind_setattr
    | erewrite bind_getattr by lookup_tac
    | erewrite run_getattr by lookup_tac
    | progress unfold if_, and_then, not_, attr_truthy, attr_is_none, attr_eq, when
    | match goal with
      | H : ?x = _ |- context [if ?x then _ else _] => rewrite H
      | H : ?x = _ |- context [negb ?x] => rewrite H
      end
    | rewrite eqb_empty_false by assumption
    | progress cbn [is_none truthy eq_str negb andb orb]
    | progress cbv beta iota ].

Ltac mrun := repeat mstep.

(** ** The scalar validators *)

Section ScalarResolution.
Context {C : Collaborators}.

Lemma id_path_nonempty sub rg provider type name child :
  id_path sub rg provider type name child ≠ "".
Proof. unfold id_path. simpl. discriminate. Qed.

Lemma id_field_not_parent r f : parent_field r = Some f -> id_field r ≠ f.
Proof. destruct r; simpl; intros H; simplify_eq; done. Qed.

(** A validator that finds an identifier in its attribute changes nothing;
    a child validator objects when the parent name is given as well. *)
Lemma resolver_on_id (r : resolver) (ns : namespace) (s : string) (p : value) :
  ns !! id_field r = Some (VStr s) ->
  s <> "" ->
  is_valid_resource_id (VStr s) = true ->
  parent_value r ns = Some p ->
  run_resolver r ns = (if truthy p then Raise (omit_error r) else Ok tt, ns).
Proof.
  intros Hf Hs Hv Hp.
  destruct r; cbn [id_field parent_value parent_field omit_error run_resolver] in *;
    simplify_eq.
  - unfold validate_inbound_nat_rule_name_or_id.
    destruct (truthy p) eqn:Ht; mrun; reflexivity.
  - unfold validate_address_pool_name_or_id.
    destruct (truthy p) eqn:Ht; mrun; reflexivity.
  - unfold validate_subnet_name_or_id.
    destruct (is_none p) eqn:Hn, (truthy p) eqn:Ht; mrun; reflexivity.
  - unfold validate_public_ip_name_or_id. mrun. reflexivity.
  - unfold validate_nsg_name_or_id. mrun. reflexivity.
Qed.

(** A validator that finds a name builds the identifier from the resource
    group, the parent and the name. *)
Lemma resolver_on_name (r : resolver) (ns : namespace) (name rg parent : string) :
  follows_template ->
  ns !! id_field r = Some (VStr name) ->
  name <> "" ->
  is_valid_resource_id (VStr name) = false ->
  ns !! "resource_group_name" = Some (VStr rg) ->
  parent_named r ns parent ->
  run_resolver r ns
  = (Ok tt, <[id_field r := VStr (expected_id r rg parent name)]> ns).
Proof.
  intros Ht Hf Hs Hv Hrg Hp.
  destruct r;
    cbn [id_field parent_named parent_field run_resolver expected_id] in *;
    try (apply proj1 in Hp as Hp'; apply proj2 in Hp).
  - unfold validate_inbound_nat_rule_name_or_id, _generate_lb_subproperty_id.
    mrun. destruct (Ht get_subscription_id rg "Microsoft.Network" "loadBalancers" parent) as [_ ->].
    reflexivity.
  - unfold validate_address_pool_name_or_id, _generate_lb_subproperty_id.
    mrun. destruct (Ht get_subscription_id rg "Microsoft.Network" "loadBalancers" parent) as [_ ->].
    reflexivity.
  - unfold validate_subnet_name_or_id.
    mrun. destruct (Ht get_subscription_id rg "Microsoft.Network" "virtualNetworks" parent) as [_ ->].
    reflexivity.
  - unfold validate_public_ip_name_or_id.
    mrun. destruct (Ht get_subscription_id rg "Microsoft.Network" "publicIPAddresses" name) as [-> _].
    reflexivity.
  - unfold validate_nsg_name_or_id.
    mrun. destruct (Ht get_subscription_id rg "Microsoft.Network" "networkSecurityGroups" name) as [-> _].
    reflexivity.
Qed.

(** A child validator that finds a name but no parent name raises and
    changes nothing. *)
Lemma resolver_without_parent (r : resolver) (ns : namespace) (name : string) (p : value) f :
  parent_field r = Some f ->
  ns !! id_field r = Some (VStr name) ->
  name <> "" ->
  is_valid_resource_id (VStr name) = false ->
  ns !! f = Some p ->
  truthy p = false ->
  run_resolver r ns = (Raise (missing_error r), ns).
Proof.
  intros Hpf Hf Hs Hv Hp Ht.
  destruct r; cbn [id_field parent_field run_resolver missing_error] in *;
    simplify_eq.
  - unfold validate_inbound_nat_rule_name_or_id. mrun. reflexivity.
  - unfold validate_address_pool_name_or_id. mrun. reflexivity.
  - unfold validate_subnet_name_or_id.
    destruct (is_none p) eqn:Hn; mrun; reflexivity.
Qed.

End ScalarResolution.

Lemma contains_app_r (p a b : string) :
  contains p b = true -> contains p (a ++ b) = true.
Proof.
  intros H. induction a as [|c a IH]; simpl; [exact H|].
  rewrite IH. apply orb_true_r.
Qed.

Section ListResolution.
Context {C : Collaborators}.


(** The loop returns the entries of all items, in order, behind what was
    accumulated, when every name can be resolved. *)
Lemma lb_id_loop_ok (child_type : string) (rg lb : value) (ns : namespace)
    (raw acc : list value) :
  forallb is_valid_resource_id raw = true
  ∨ (truthy lb = true ∧ ns !! "resource_group_name" = Some rg) ->
  lb_id_loop (VStr get_subscription_id) lb (VStr child_type) raw acc ns
  = (Ok (acc ++ map (wrap_id child_type rg lb) raw), ns).
Proof.
  intros H. revert acc.
  induction raw as [|item rest IH]; intros acc; simpl.
  - rewrite app_nil_r. reflexivity.
  - unfold wrap_id at 1.
    destruct (is_valid_resource_id item) eqn:Hv.
    + rewrite IH.
      * rewrite <- app_assoc. reflexivity.
      * destruct H as [H|H]; [|right; exact H].
        simpl in H. rewrite Hv in H. left. exact H.
    + destruct H as [H|[Hlb Hrg]].
      { simpl in H. rewrite Hv in H. discriminate. }
      rewrite Hlb. simpl. mrun. rewrite IH by (right; done).
      rewrite <- app_assoc. reflexivity.
Qed.

(** Without a load-balancer name the loop raises at the first name, and the
    namespace is as before. *)
Lemma lb_id_loop_raise (child_type : string) (lb : value) (ns : namespace)
    (raw acc : list value) (item : value) :
  truthy lb = false ->
  find (fun i => negb (is_valid_resource_id i)) raw = Some item ->
  lb_id_loop (VStr get_subscription_id) lb (VStr child_type) raw acc ns
  = (Raise (unable_to_process item), ns).
Proof.
  intros Hlb. revert acc.
  induction raw as [|x rest IH]; intros acc Hfind; simpl in *; [discriminate|].
  destruct (is_valid_resource_id x) eqn:Hv; simpl in Hfind.
  - apply IH. exact Hfind.
  - injection Hfind as ->. rewrite Hlb. reflexivity.
Qed.

Lemma run_list_resolver_unfold (r : list_resolver) :
  run_list_resolver r
  = _generate_lb_id_list_from_names_or_ids (list_field r) (list_child_type r).
Proof. destruct r; reflexivity. Qed.

Lemma list_resolver_empty (r : list_resolver) (ns : namespace) (raw : value) :
  ns !! list_field r = Some raw -> truthy raw = false ->
  run_list_resolver r ns = (Ok tt, ns).
Proof.
  intros Hraw Hf. rewrite run_list_resolver_unfold.
  unfold _generate_lb_id_list_from_names_or_ids. mrun. reflexivity.
Qed.

Lemma list_resolver_ok (r : list_resolver) (ns : namespace) (raw lb rg : value) :
  ns !! list_field r = Some raw -> truthy raw = true ->
  ns !! "load_balancer_name" = Some lb ->
  forallb is_valid_resource_id (as_list raw) = true
  ∨ (truthy lb = true ∧ ns !! "resource_group_name" = Some rg) ->
  run_list_resolver r ns
  = (Ok tt, <[list_field r :=
              VList (map (wrap_id (list_child_type r) rg lb) (as_list raw))]> ns).
Proof.
  intros Hraw Ht Hlb H. rewrite run_list_resolver_unfold.
  unfold _generate_lb_id_list_from_names_or_ids. mrun.
  fold (as_list raw).
  unfold bind at 1. rewrite (lb_id_loop_ok _ rg) by exact H.
  reflexivity.
Qed.

Lemma list_resolver_raise (r : list_resolver) (ns : namespace)
    (raw lb item : value) :
  ns !! list_field r = Some raw -> truthy raw = true ->
  ns !! "load_balancer_name" = Some lb -> truthy lb = false ->
  find (fun i => negb (is_valid_resource_id i)) (as_list raw) = Some item ->
  run_list_resolver r ns = (Raise (unable_to_process item), ns).
Proof.
  intros Hraw Ht Hlb Hf Hfind. rewrite run_list_resolver_unfold.
  unfold _generate_lb_id_list_from_names_or_ids. mrun.
  fold (as_list raw).
  unfold bind at 1. rewrite (lb_id_loop_raise _ _ _ _ _ item) by assumption.
  reflexivity.
Qed.

End ListResolution.

(** ** base64 text is ASCII *)

Lemma list_ind3 {A} (P : list A -> Prop) :
  P [] -> (∀ a, P [a]) -> (∀ a b, P [a; b]) ->
  (∀ a b c r, P r -> P (a :: b :: c :: r)) ->
  ∀ l, P l.
Proof.
  intros H0 H1 H2 H3.
  fix IH 1. intros [|a [|b [|c r]]]; [exact H0|apply H1|apply H2|].
  apply H3, IH.
Qed.

Lemma b64_pad_ascii : in_range 0 127 b64_pad = true.
Proof. reflexivity. Qed.

Lemma b64_char_ascii (sextet : N) : in_range 0 127 (b64_char sextet) = true.
Proof.
  unfold b64_char.
  destruct (Nat.lt_ge_cases (N.to_nat sextet) (length b64_alphabet)) as [Hlt|Hge].
  - assert (Hall : forallb (in_range 0 127) b64_alphabet = true)
      by (vm_compute; reflexivity).
    apply (proj1 (List.forallb_forall _ _) Hall), nth_In, Hlt.
  - rewrite nth_overflow by exact Hge. reflexivity.
Qed.

Lemma b64encode_ascii (bs : list byte) :
  forallb (in_range 0 127) (b64encode bs) = true.
Proof.
  induction bs as [|a|a b|a b c r IH] using list_ind3;
    cbn [b64encode forallb];
    rewrite ?b64_char_ascii, ?b64_pad_ascii, ?IH; reflexivity.
Qed.

Lemma utf8_valid_ascii (bs : list byte) :
  forallb (in_range 0 127) bs = true -> utf8_valid bs = true.
Proof.
  induction bs as [|b r IH]; [reflexivity|].
  cbn [forallb utf8_valid]. intros [Hb Hr]%andb_true_iff.
  rewrite Hb. apply IH, Hr.
Qed.

Lemma decode_b64encode (contents : list byte) :
  decode_utf8 (b64encode contents)
  = Some (string_of_list_byte (b64encode contents)).
Proof.
  unfold decode_utf8.
  rewrite utf8_valid_ascii by apply b64encode_ascii. reflexivity.
Qed.

(** ** Removing the marker *)

Lemma replace_from_absent (old : string) (s : string) :
  contains old s = false -> replace_from old "" 0 s = s.
Proof.
  induction s as [|c s IH]; [reflexivity|].
  cbn [contains replace_from]. intros [Hp Hc]%orb_false_iff.
  rewrite Hp, IH by exact Hc. reflexivity.
Qed.

Lemma str_replace_absent (raw : string) :
  contains SPECIFIED_SENTINEL raw = false ->
  str_replace SPECIFIED_SENTINEL "" raw = raw.
Proof. apply replace_from_absent. Qed.

Lemma str_replace_marked (raw : string) :
  str_replace SPECIFIED_SENTINEL "" (SPECIFIED_SENTINEL ++ raw)
  = str_replace SPECIFIED_SENTINEL "" raw.
Proof. destruct raw; reflexivity. Qed.


Lemma str_replace_clean (s : string) :
  plain_or_marked s ->
  contains SPECIFIED_SENTINEL (str_replace SPECIFIED_SENTINEL "" s) = false.
Proof.
  intros (raw & Hraw & [-> | ->]).
  - rewrite str_replace_absent; assumption.
  - rewrite str_replace_marked, str_replace_absent; assumption.
Qed.

Section Servers.
Context {C : Collaborators}.

(** ** Servers *)


Lemma servers_loop_ok (l : list string) (acc : list value) (ns : namespace) :
  servers_loop (map VStr l) acc ns = (Ok (acc ++ map classify l), ns).
Proof.
  revert acc. induction l as [|s l IH]; intros acc; simpl.
  - rewrite app_nil_r. reflexivity.
  - unfold classify at 1.
    destruct (inet_aton s); rewrite IH, <- app_assoc; reflexivity.
Qed.

Lemma validate_servers_strings (ns : namespace) (l : list string) :
  ns !! "servers" = Some (VList (map VStr l)) ->
  validate_servers ns = (Ok tt, <["servers" := VList (map classify l)]> ns).
Proof.
  intros H. unfold validate_servers.
  destruct l as [|s l].
  - mrun. cbn [py_iter]. mrun. reflexivity.
  - mrun. cbn [map]. mrun. cbn [py_iter]. mrun.
    change (VStr s :: map VStr l) with (map VStr (s :: l)).
    unfold bind at 1. rewrite servers_loop_ok. reflexivity.
Qed.


End Servers.

Section ResolutionTheorems.
Context {C : Collaborators}.

(** C1 (amended).  When the attribute of a scalar name-or-id validator
    already holds a well-formed resource identifier, the validator leaves
    that attribute, and the whole namespace, as it is.  It returns normally
    when the name of the parent resource is not given; the validators of
    top-level resources (public IP address, network security group) read no
    parent and always return normally.  When the parent name is given as
    well, the validators of child resources raise their error that asks to
    omit it. *)
Theorem valid_id_leaves_field_unchanged
    (r : resolver) (ns : namespace) (s : string) (p : value) :
  ns !! id_field r = Some (VStr s) ->
  s <> "" ->
  is_valid_resource_id (VStr s) = true ->
  parent_value r ns = Some p ->
  run_resolver r ns = (if truthy p then Raise (omit_error r) else Ok tt, ns)
  ∧ snd (run_resolver r ns) !! id_field r = Some (VStr s)
  ∧ (has_parent r = false -> fst (run_resolver r ns) = Ok tt).
Proof.
  intros Hf Hs Hv Hp.
  pose proof (resolver_on_id r ns s p Hf Hs Hv Hp) as Hrun.
  rewrite Hrun. repeat split; [exact Hf|].
  intros Hnp. destruct r; try discriminate Hnp;
    cbn [parent_value parent_field] in Hp; simplify_eq; reflexivity.
Qed.

(** C2 (amended).  When the attribute holds a non-empty name that is not an
    identifier, and the resource group and (for a child resource) the parent
    name are given, the validator sets the attribute to the identifier
    written out from the documented template, with the subscription of the
    session.  A second run on the resulting namespace depends on whether
    that identifier is recognised as one.  When it is, the namespace stays
    as it is; a top-level validator returns normally, a child validator
    finds the parent name still set and raises the error that asks to omit
    it.  When it is not, the validator takes the identifier for a name and
    resolves it once more. *)
Theorem bare_name_resolves_to_template
    (r : resolver) (ns : namespace) (name rg parent : string) :
  follows_template ->
  ns !! id_field r = Some (VStr name) ->
  name <> "" ->
  is_valid_resource_id (VStr name) = false ->
  ns !! "resource_group_name" = Some (VStr rg) ->
  parent_named r ns parent ->
  let out := expected_id r rg parent name in
  let ns' := <[id_field r := VStr out]> ns in
  run_resolver r ns = (Ok tt, ns')
  ∧ run_resolver r ns'
    = (if is_valid_resource_id (VStr out)
       then (if has_parent r then Raise (omit_error r) else Ok tt, ns')
       else (Ok tt, <[id_field r := VStr (expected_id r rg parent out)]> ns')).
Proof.
  intros Ht Hf Hs Hv Hrg Hp out ns'. split.
  - apply resolver_on_name; assumption.
  - assert (Hne : out <> "") by (destruct r; apply id_path_nonempty).
    assert (Hf' : ns' !! id_field r = Some (VStr out))
      by apply lookup_insert_eq.
    assert (Hrg' : ns' !! "resource_group_name" = Some (VStr rg)).
    { unfold ns'. rewrite lookup_insert_ne by (destruct r; done). exact Hrg. }
    assert (Hp' : parent_named r ns' parent).
    { unfold parent_named in *. destruct (parent_field r) as [f|] eqn:Hpf;
        [|exact I].
      destruct Hp as [Hp Hpne]. split; [|exact Hpne]. unfold ns'.
      rewrite lookup_insert_ne by (apply id_field_not_parent; exact Hpf).
      exact Hp. }
    destruct (is_valid_resource_id (VStr out)) eqn:Hout.
    + unfold parent_named, has_parent in *.
      destruct (parent_field r) as [f|] eqn:Hpf.
      * destruct Hp' as [Hp' Hpne].
        rewrite (resolver_on_id r ns' _ (VStr parent) Hf' Hne Hout).
        -- cbn [truthy]. rewrite eqb_empty_false by exact Hpne. reflexivity.
        -- unfold parent_value. rewrite Hpf. exact Hp'.
      * rewrite (resolver_on_id r ns' _ VNone Hf' Hne Hout).
        -- reflexivity.
        -- unfold parent_value. rewrite Hpf. reflexivity.
    + apply resolver_on_name; assumption.
Qed.

(** C3 (amended).  A validator that finds a name that is not an identifier,
    while the name of the parent resource is not given, raises an error
    whose message names the missing flag, and the namespace, the attribute
    included, is as before.  For the load-balancer validators, scalar and
    list-valued, the error is the configuration error (CLIError); for the
    subnet validator it is the option-parsing error (ArgumentError). *)
Theorem missing_parent_raises :
  (∀ (r : resolver) (ns : namespace) (name : string) (p : value) (f : string),
      parent_field r = Some f ->
      ns !! id_field r = Some (VStr name) ->
      name <> "" ->
      is_valid_resource_id (VStr name) = false ->
      ns !! f = Some p ->
      truthy p = false ->
      run_resolver r ns = (Raise (missing_error r), ns)
      ∧ contains (parent_flag r) (exn_message (missing_error r)) = true
      ∧ is_cli_error (missing_error r)
        = match r with Subnet => false | _ => true end)
  ∧ (∀ (r : list_resolver) (ns : namespace) (raw lb item : value),
      ns !! list_field r = Some raw ->
      truthy raw = true ->
      ns !! "load_balancer_name" = Some lb ->
      truthy lb = false ->
      find (fun i => negb (is_valid_resource_id i)) (as_list raw) = Some item ->
      run_list_resolver r ns = (Raise (unable_to_process item), ns)
      ∧ contains "--lb-name" (exn_message (unable_to_process item)) = true
      ∧ is_cli_error (unable_to_process item) = true).
Proof.
  split.
  - intros r ns name p f Hpf Hf Hs Hv Hp Ht.
    split; [eapply resolver_without_parent; eassumption|].
    destruct r; try discriminate Hpf; split; reflexivity.
  - intros r ns raw lb item Hraw Ht Hlb Hf Hfind.
    split; [apply (list_resolver_raise r ns raw lb); assumption|].
    split; [|reflexivity].
    cbn [exn_message unable_to_process].
    apply contains_app_r, contains_app_r. reflexivity.
Qed.

(** C4.  A list-valued validator normalises its attribute to a list and
    replaces it by the list of the entries [{'id': <identifier>}] of its
    items: same length, same order, each entry computed from its own item
    alone.  When an item is a name while the load-balancer name is not
    given, the validator raises and assigns nothing.  An attribute that is
    empty or absent (None, the empty list, the empty string) gives an empty
    result: the validator returns and the attribute still holds that empty
    value. *)
Theorem lb_id_list_spec (r : list_resolver) (ns : namespace) (raw : value) :
  ns !! list_field r = Some raw ->
  (truthy raw = false ->
   run_list_resolver r ns = (Ok tt, ns)
   ∧ snd (run_list_resolver r ns) !! list_field r = Some raw)
  ∧ (truthy raw = true ->
     ∀ lb rg : value,
       ns !! "load_balancer_name" = Some lb ->
       forallb is_valid_resource_id (as_list raw) = true
       ∨ (truthy lb = true ∧ ns !! "resource_group_name" = Some rg) ->
       let out := map (wrap_id (list_child_type r) rg lb) (as_list raw) in
       run_list_resolver r ns = (Ok tt, <[list_field r := VList out]> ns)
       ∧ length out = length (as_list raw)
       ∧ ∀ (i : nat) (item : value),
           as_list raw !! i = Some item ->
           out !! i = Some (wrap_id (list_child_type r) rg lb item))
  ∧ (truthy raw = true ->
     ∀ lb item : value,
       ns !! "load_balancer_name" = Some lb ->
       truthy lb = false ->
       find (fun i => negb (is_valid_resource_id i)) (as_list raw) = Some item ->
       run_list_resolver r ns = (Raise (unable_to_process item), ns)).
Proof.
  intros Hraw. split; [|split].
  - intros Hf. rewrite (list_resolver_empty r ns raw) by assumption.
    split; [reflexivity|exact Hraw].
  - intros Ht lb rg Hlb H out. split; [|split].
    + apply list_resolver_ok; assumption.
    + unfold out. apply length_map.
    + intros i item Hi. unfold out. rewrite list_lookup_fmap, Hi. reflexivity.
  - intros Ht lb item Hlb Hf Hfind.
    apply (list_resolver_raise r ns raw lb); assumption.
Qed.

End ResolutionTheorems.


Section Certificate.
Context {C : Collaborators}.



Lemma validate_cert_none (ns : namespace) (cd cp fp : value) :
  ns !! "cert_data" = Some cd -> ns !! "cert_password" = Some cp ->
  ns !! "frontend_port" = Some fp ->
  truthy cd = false -> truthy cp = false ->
  validate_cert ns
  = (Ok tt, default_port 80 fp (<["http_listener_protocol" := VStr "http"]> ns)).
Proof.
  intros Hcd Hcp Hfp Hd Hp. unfold validate_cert, default_port.
  mrun. cbn [forallb]. rewrite Hd, Hp. cbn [negb andb].
  destruct (truthy fp) eqn:Hf; mrun; reflexivity.
Qed.

Lemma validate_cert_one (ns : namespace) (cd cp : value) :
  ns !! "cert_data" = Some cd -> ns !! "cert_password" = Some cp ->
  truthy cd <> truthy cp ->
  validate_cert ns = (Raise cert_error, ns).
Proof.
  intros Hcd Hcp Hne. unfold validate_cert.
  mrun. cbn [forallb].
  destruct (truthy cd), (truthy cp); try congruence;
    cbn [negb andb]; mrun; reflexivity.
Qed.

Lemma validate_cert_both (ns : namespace) (cd cp fp : value) (contents : list byte) :
  ns !! "cert_data" = Some cd -> ns !! "cert_password" = Some cp ->
  ns !! "frontend_port" = Some fp ->
  truthy cd = true -> truthy cp = true ->
  open_rb cd = Some contents ->
  validate_cert ns
  = (Ok tt,
     default_port 443 fp
       (<["http_listener_protocol" := VStr "https"]>
          (<["cert_data" := VStr (string_of_list_byte (b64encode contents))]> ns))).
Proof.
  intros Hcd Hcp Hfp Hd Hp Hopen. unfold validate_cert, default_port.
  mrun. cbn [forallb]. rewrite Hd, Hp. cbn [negb andb].
  mrun. rewrite Hopen, decode_b64encode.
  destruct (truthy fp) eqn:Hf; mrun; reflexivity.
Qed.

End Certificate.

Section ConsistencyTheorems.
Context {C : Collaborators}.

(** C5.  [validate_cert], where an attribute counts as unset when it is
    None or empty.  With neither certificate file nor password the protocol
    becomes http and the frontend port becomes 80 unless a port is given.
    With exactly one of the two the option-parsing error is raised and
    nothing is changed.  With both, and a file that can be read, the
    protocol becomes https, the port becomes 443 unless a port is given,
    and [cert_data] holds the base64 text of the bytes of the file. *)
Theorem validate_cert_spec (ns : namespace) (cd cp fp : value) :
  ns !! "cert_data" = Some cd ->
  ns !! "cert_password" = Some cp ->
  ns !! "frontend_port" = Some fp ->
  (truthy cd = false -> truthy cp = false ->
   validate_cert ns
   = (Ok tt,
      default_port 80 fp (<["http_listener_protocol" := VStr "http"]> ns)))
  ∧ (truthy cd <> truthy cp -> validate_cert ns = (Raise cert_error, ns))
  ∧ (truthy cd = true -> truthy cp = true ->
     ∀ contents : list byte,
       open_rb cd = Some contents ->
       validate_cert ns
       = (Ok tt,
          default_port 443 fp
            (<["http_listener_protocol" := VStr "https"]>
               (<["cert_data" :=
                    VStr (string_of_list_byte (b64encode contents))]> ns)))).
Proof.
  intros Hcd Hcp Hfp. split; [|split].
  - intros. eapply validate_cert_none; eassumption.
  - intros. eapply validate_cert_one; eassumption.
  - intros. eapply validate_cert_both; eassumption.
Qed.

(** C6.  [validate_subnet_name_or_id]: a subnet identifier together with a
    virtual-network name raises; a virtual-network name without a subnet
    raises; neither of the two leaves the namespace untouched; a subnet
    that is the empty string makes the validator do nothing, whatever the
    virtual-network name is. *)
Theorem validate_subnet_exclusivity (ns : namespace) (subnet vnet : value) :
  ns !! "subnet" = Some subnet ->
  ns !! "virtual_network_name" = Some vnet ->
  (∀ s : string,
     subnet = VStr s -> s <> "" -> is_valid_resource_id (VStr s) = true ->
     truthy vnet = true ->
     validate_subnet_name_or_id ns
     = (Raise (ArgumentError
                 "Please omit --vnet-name when specifying a subnet ID"), ns))
  ∧ (subnet = VNone -> truthy vnet = true ->
     validate_subnet_name_or_id ns
     = (Raise (CLIError
                 "You must specify --subnet name when using --vnet-name."), ns))
  ∧ (subnet = VNone -> vnet = VNone ->
     validate_subnet_name_or_id ns = (Ok tt, ns))
  ∧ (subnet = VStr "" -> validate_subnet_name_or_id ns = (Ok tt, ns)).
Proof.
  intros Hs Hv. unfold validate_subnet_name_or_id. repeat split.
  - intros s -> Hne Hid Ht.
    destruct (is_none vnet) eqn:Hn; mrun; reflexivity.
  - intros -> Ht.
    destruct (is_none vnet) eqn:Hn;
      [apply is_none_truthy in Hn; congruence|].
    mrun. reflexivity.
  - intros -> ->. mrun. reflexivity.
  - intros ->. destruct (is_none vnet) eqn:Hn; mrun; reflexivity.
Qed.


(** C8 (amended).  [validate_address_prefixes] replaces both prefixes by
    what [str.replace] leaves of them when it removes the marker, whether it
    returns or raises, and it raises exactly when the subnet type is not
    'new' and one of the prefixes carried the marker.  The marker is absent
    from a prefix afterwards when the prefix was a raw text, or the marker
    followed by a raw text, and the raw text did not contain the marker. *)
Theorem validate_address_prefixes_spec
    (ns : namespace) (sp vp : string) (st sn : value) :
  ns !! "subnet_address_prefix" = Some (VStr sp) ->
  ns !! "vnet_address_prefix" = Some (VStr vp) ->
  ns !! "subnet_type" = Some st ->
  ns !! "subnet" = Some sn ->
  let sp' := str_replace SPECIFIED_SENTINEL "" sp in
  let vp' := str_replace SPECIFIED_SENTINEL "" vp in
  let ns' := <["vnet_address_prefix" := VStr vp']>
               (<["subnet_address_prefix" := VStr sp']> ns) in
  let reused_and_set :=
    negb (eq_str st "new")
    && (contains SPECIFIED_SENTINEL sp || contains SPECIFIED_SENTINEL vp) in
  validate_address_prefixes ns
  = (if reused_and_set then Raise (existing_subnet_error sn) else Ok tt, ns')
  ∧ (plain_or_marked sp -> contains SPECIFIED_SENTINEL sp' = false)
  ∧ (plain_or_marked vp -> contains SPECIFIED_SENTINEL vp' = false).
Proof.
  intros Hsp Hvp Hst Hsn sp' vp' ns' cond. split; [|split].
  - unfold validate_address_prefixes. mrun. cbn [py_in py_replace]. mrun.
    cbn [py_in py_replace]. mrun. cbn [py_in py_replace]. mrun.
    cbn [py_in py_replace]. mrun.
    subst cond.
    destruct (eq_str st "new") eqn:Hnew; cbn [negb andb]; mrun; [reflexivity|].
    destruct (contains SPECIFIED_SENTINEL sp || contains SPECIFIED_SENTINEL vp);
      mrun; reflexivity.
  - apply str_replace_clean.
  - apply str_replace_clean.
Qed.

(** C9.  When a subnet is set, [validate_public_ip_type] sets the public-IP
    type to 'none'; when a public IP address is set as well it raises the
    option-parsing error, and so does [process_lb_create_namespace]. *)
Theorem subnet_forces_public_ip_type_none (ns : namespace) (subnet pip : value) :
  ns !! "subnet" = Some subnet ->
  truthy subnet = true ->
  ns !! "public_ip_address" = Some pip ->
  validate_public_ip_type ns
  = (if truthy pip
     then Raise (ArgumentError
       "Cannot specify --subnet and --public-ip-address when creating a load balancer.")
     else Ok tt,
     <["public_ip_address_type" := VStr "none"]> ns)
  ∧ (truthy pip = true ->
     ∀ dns : value,
       ns !! "public_ip_dns_name" = Some dns ->
       fst (process_lb_create_namespace ns)
       = Raise (ArgumentError
           "Must specify a subnet OR a public IP address, not both.")).
Proof.
  intros Hs Ht Hp. split.
  - unfold validate_public_ip_type.
    destruct (truthy pip) eqn:Hpip; mrun; reflexivity.
  - intros Hpip dns Hdns. unfold process_lb_create_namespace.
    destruct (truthy dns) eqn:Hd; mrun; reflexivity.
Qed.

(** C10.  The base64 encoding of any byte string consists of ASCII bytes and
    decodes as UTF-8, so the branch of [validate_cert] that handles a
    decoding error is never taken: whenever the certificate file is read,
    [validate_cert] returns with the decoded base64 text in [cert_data]. *)
Theorem base64_text_always_decodes :
  (∀ contents : list byte,
     forallb (in_range 0 127) (b64encode contents) = true
     ∧ decode_utf8 (b64encode contents)
       = Some (string_of_list_byte (b64encode contents)))
  ∧ (∀ (ns : namespace) (cd cp fp : value) (contents : list byte),
       ns !! "cert_data" = Some cd ->
       ns !! "cert_password" = Some cp ->
       ns !! "frontend_port" = Some fp ->
       truthy cd = true -> truthy cp = true ->
       open_rb cd = Some contents ->
       fst (validate_cert ns) = Ok tt
       ∧ snd (validate_cert ns) !! "cert_data"
         = Some (VStr (string_of_list_byte (b64encode contents)))).
Proof.
  split.
  - intros contents. split; [apply b64encode_ascii|apply decode_b64encode].
  - intros ns cd cp fp contents Hcd Hcp Hfp Hd Hp Hopen.
    rewrite (validate_cert_both ns cd cp fp contents) by assumption.
    split; [reflexivity|]. unfold default_port. cbn [snd].
    destruct (truthy fp); simplify_map_eq; reflexivity.
Qed.

End ConsistencyTheorems.

(** ** The properties on concrete namespaces *)

Section Concrete.
Import Model Examples.

(** The encoders on known inputs. *)
Example b64encode_vectors :
  map (fun t => string_of_list_byte (b64encode (list_byte_of_string t)))
      [""; "f"; "fo"; "foo"; "foob"; "fooba"; "foobar"]
  = [""; "Zg=="; "Zm8="; "Zm9v"; "Zm9vYg=="; "Zm9vYmE="; "Zm9vYmFy"].
Proof. vm_compute. reflexivity. Qed.

Example utf8_valid_samples :
  utf8_valid [x63; xc3; xa9]%byte = true
  ∧ utf8_valid [xff]%byte = false
  ∧ utf8_valid [xc0; x80]%byte = false
  ∧ utf8_valid [xed; xa0; x80]%byte = false
  ∧ utf8_valid [xe2; x82]%byte = false.
Proof. vm_compute. repeat split. Qed.

Example str_replace_samples :
  str_replace "__SET__" "" "__SET__10.0.0.0/16" = "10.0.0.0/16"
  ∧ str_replace "aa" "b" "aaaaa" = "bba"
  ∧ str_replace "" "-" "abc" = "-a-b-c-"
  ∧ str_replace "__SET__" "" "__SE__SET__T__" = "__SET__".
Proof. vm_compute. repeat split. Qed.

Example inet_aton_samples :
  map inet_aton ["10.0.0.5"; "db.example.com"; "127.1"; "0x7f.1"; "1.2.3.256";
                 "1.2.3.4.5"; "09.0.0.1"; ""]
  = [true; false; true; true; false; false; false; false].
Proof. vm_compute. reflexivity. Qed.

Example is_valid_resource_id_samples :
  map is_valid_resource_id
      [VStr rule_id; VStr public_ip_id; VStr "rule1"; VStr ""; VNone;
       VStr "/subscriptions/s/resourceGroups/rg"]
  = [true; true; false; false; false; false].
Proof. vm_compute. reflexivity. Qed.

Lemma model_follows_template : follows_template.
Proof. intros sub rg provider type name. split; [|intros ct cn]; reflexivity. Qed.

Lemma valid_id_leaves_field_unchanged_witness :
  run_resolver Subnet ns_subnet_id = (Ok tt, ns_subnet_id)
  ∧ snd (run_resolver Subnet ns_subnet_id) !! "subnet" = Some (VStr subnet_id)
  ∧ (has_parent Subnet = false -> fst (run_resolver Subnet ns_subnet_id) = Ok tt).
Proof.
  apply (valid_id_leaves_field_unchanged Subnet ns_subnet_id subnet_id VNone).
  - vm_compute. reflexivity.
  - discriminate.
  - vm_compute. reflexivity.
  - vm_compute. reflexivity.
Defined.

(** C1, counterexample: the inbound NAT rule is a well-formed identifier and
    the validator raises, because the load balancer is named as well. *)
Lemma valid_id_with_lb_name_raises :
  ns_rule_id_with_lb !! "inbound_nat_rule" = Some (VStr rule_id)
  ∧ is_valid_resource_id (VStr rule_id) = true
  ∧ validate_inbound_nat_rule_name_or_id ns_rule_id_with_lb
    = (Raise (CLIError
         "Please omit --lb-name when specifying an inbound NAT rule ID."),
       ns_rule_id_with_lb).
Proof. split; [|split]; vm_compute; reflexivity. Qed.

Lemma bare_name_resolves_to_template_witness :
  run_resolver AddressPool ns_pool_name = (Ok tt, ns_pool_resolved)
  ∧ run_resolver AddressPool ns_pool_resolved
    = (Raise (CLIError
         "Please omit --lb-name when specifying an address pool ID."),
       ns_pool_resolved).
Proof.
  refine (bare_name_resolves_to_template AddressPool ns_pool_name
            "pool1" "rg1" "lb1" _ _ _ _ _ _).
  - exact model_follows_template.
  - vm_compute. reflexivity.
  - discriminate.
  - vm_compute. reflexivity.
  - vm_compute. reflexivity.
  - split; [vm_compute; reflexivity|discriminate].
Defined.

(** C2, counterexample: a second run is not without effect.  The address
    pool resolved from its name makes the second run raise, because the
    load balancer is still named; and the public IP address named a/b is
    resolved to an identifier that is not recognised as one, so that the
    second run builds an identifier from the identifier. *)
Lemma rerun_is_not_idempotent :
  (validate_address_pool_name_or_id ns_pool_name = (Ok tt, ns_pool_resolved)
   ∧ fst (validate_address_pool_name_or_id ns_pool_resolved)
     = Raise (CLIError
         "Please omit --lb-name when specifying an address pool ID."))
  ∧ (is_valid_resource_id (VStr "a/b") = false
     ∧ validate_public_ip_name_or_id ns_public_ip_slash
       = (Ok tt, <["public_ip_address" := VStr slash_id]> ns_public_ip_slash)
     ∧ snd (validate_public_ip_name_or_id
              (<["public_ip_address" := VStr slash_id]> ns_public_ip_slash))
         !! "public_ip_address"
       = Some (VStr slash_id_twice)
     ∧ String.eqb slash_id_twice slash_id = false).
Proof.
  split; [split|split; [|split; [|split]]]; vm_compute; reflexivity.
Qed.

(** A public IP address is resolved from its name, and a second run of the
    validator returns with the same namespace. *)
Example public_ip_rerun :
  validate_public_ip_name_or_id ns_public_ip_name
  = (Ok tt, ns_public_ip_resolved)
  ∧ validate_public_ip_name_or_id ns_public_ip_resolved
    = (Ok tt, ns_public_ip_resolved).
Proof. split; vm_compute; reflexivity. Qed.

Lemma missing_parent_raises_witness :
  run_resolver AddressPool ns_pool_name_no_lb
  = (Raise (CLIError
       "Please specify --lb-name when specifying an address pool name."),
     ns_pool_name_no_lb)
  ∧ run_list_resolver InboundNatRuleIds ns_rule_list_no_lb
    = (Raise (CLIError
         "Unable to process rule2. Please supply a well-formed ID or --lb-name."),
       ns_rule_list_no_lb).
Proof.
  destruct (missing_parent_raises (C := collaborators)) as [Hscalar Hlist].
  split.
  - apply (Hscalar AddressPool ns_pool_name_no_lb "pool1" VNone "load_balancer_name").
    + reflexivity.
    + vm_compute. reflexivity.
    + discriminate.
    + vm_compute. reflexivity.
    + vm_compute. reflexivity.
    + reflexivity.
  - apply (Hlist InboundNatRuleIds ns_rule_list_no_lb
             (VList [VStr rule_id; VStr "rule2"]) VNone (VStr "rule2")).
    + vm_compute. reflexivity.
    + reflexivity.
    + vm_compute. reflexivity.
    + reflexivity.
    + vm_compute. reflexivity.
Defined.

(** C3, counterexample: a subnet name without a virtual-network name raises
    the option-parsing error, not the configuration error. *)
Lemma subnet_name_without_vnet_is_argument_error :
  ns_subnet_name_no_vnet !! "subnet" = Some (VStr "subnet1")
  ∧ is_valid_resource_id (VStr "subnet1") = false
  ∧ ns_subnet_name_no_vnet !! "virtual_network_name" = Some VNone
  ∧ ∃ e, validate_subnet_name_or_id ns_subnet_name_no_vnet
         = (Raise e, ns_subnet_name_no_vnet)
         ∧ e = ArgumentError
                 "Please specify --vnet-name when specifying a subnet name"
         ∧ is_cli_error e = false.
Proof.
  split; [vm_compute; reflexivity|].
  split; [vm_compute; reflexivity|].
  split; [vm_compute; reflexivity|].
  eexists. split; [vm_compute; reflexivity|].
  split; reflexivity.
Qed.

Lemma lb_id_list_spec_witness :
  run_list_resolver InboundNatRuleIds ns_rule_list
  = (Ok tt,
     <["load_balancer_inbound_nat_rule_ids" :=
         VList [VDict [("id", VStr rule_id)]; VDict [("id", VStr rule2_id)]]]>
       ns_rule_list).
Proof.
  destruct (lb_id_list_spec (C := collaborators) InboundNatRuleIds ns_rule_list
              (VList [VStr rule_id; VStr "rule2"])) as (_ & Hok & _).
  - vm_compute. reflexivity.
  - apply (Hok eq_refl (VStr "lb1") (VStr "rg1")).
    + vm_compute. reflexivity.
    + right. split; vm_compute; reflexivity.
Defined.

Lemma validate_cert_spec_witness :
  validate_cert ns_cert
  = (Ok tt,
     <["frontend_port" := VInt 443]>
       (<["http_listener_protocol" := VStr "https"]>
          (<["cert_data" := VStr "Zm9vYmFy"]> ns_cert))).
Proof.
  destruct (validate_cert_spec (C := collaborators) ns_cert
              (VStr "cert.pfx") (VStr "secret") VNone) as (_ & _ & Hboth).
  - vm_compute. reflexivity.
  - vm_compute. reflexivity.
  - vm_compute. reflexivity.
  - apply (Hboth eq_refl eq_refl (list_byte_of_string "foobar")).
    vm_compute. reflexivity.
Defined.

Lemma validate_subnet_exclusivity_witness :
  validate_subnet_name_or_id ns_subnet_id_with_vnet
  = (Raise (ArgumentError
       "Please omit --vnet-name when specifying a subnet ID"),
     ns_subnet_id_with_vnet).
Proof.
  destruct (validate_subnet_exclusivity (C := collaborators)
              ns_subnet_id_with_vnet (VStr subnet_id) (VStr "vnet1"))
    as (Hid & _).
  - vm_compute. reflexivity.
  - vm_compute. reflexivity.
  - apply (Hid subnet_id).
    + reflexivity.
    + discriminate.
    + vm_compute. reflexivity.
    + reflexivity.
Defined.



Lemma validate_address_prefixes_spec_witness :
  validate_address_prefixes ns_prefixes
  = (Raise (CLIError
       "Existing subnet (subnet1) found. Cannot specify address prefixes when reusing an existing subnet."),
     <["vnet_address_prefix" := VStr "10.0.0.0/16"]>
       (<["subnet_address_prefix" := VStr "10.0.0.0/24"]> ns_prefixes))
  ∧ contains SPECIFIED_SENTINEL "10.0.0.0/24" = false
  ∧ contains SPECIFIED_SENTINEL "10.0.0.0/16" = false.
Proof.
  destruct (validate_address_prefixes_spec (C := collaborators) ns_prefixes
              "__SET__10.0.0.0/24" "10.0.0.0/16" (VStr "existing")
              (VStr "subnet1")) as (Hrun & Hsp & Hvp).
  - vm_compute. reflexivity.
  - vm_compute. reflexivity.
  - vm_compute. reflexivity.
  - vm_compute. reflexivity.
  - split; [exact Hrun|split].
    + apply Hsp. exists "10.0.0.0/24". split; [reflexivity|right; reflexivity].
    + apply Hvp. exists "10.0.0.0/16". split; [reflexivity|left; reflexivity].
Defined.

(** C8, counterexample: the user gives the virtual-network prefix
    [__SE__SET__T__] explicitly; the validator returns and the prefix it
    leaves is the marker itself. *)
Lemma sentinel_survives_replace :
  validate_address_prefixes ns_prefixes_nested
  = (Ok tt,
     <["vnet_address_prefix" := VStr "__SET__"]>
       (<["subnet_address_prefix" := VStr "10.0.0.0/24"]> ns_prefixes_nested))
  ∧ snd (validate_address_prefixes ns_prefixes_nested) !! "vnet_address_prefix"
    = Some (VStr "__SET__")
  ∧ contains SPECIFIED_SENTINEL "__SET__" = true.
Proof. split; [|split]; vm_compute; reflexivity. Qed.

Lemma subnet_forces_public_ip_type_none_witness :
  validate_public_ip_type ns_gateway
  = (Raise (ArgumentError
       "Cannot specify --subnet and --public-ip-address when creating a load balancer."),
     <["public_ip_address_type" := VStr "none"]> ns_gateway)
  ∧ fst (process_lb_create_namespace ns_gateway)
    = Raise (ArgumentError
        "Must specify a subnet OR a public IP address, not both.").
Proof.
  destruct (subnet_forces_public_ip_type_none ns_gateway
              (VStr "subnet1") (VStr "ip1")) as (Hrun & Hlb).
  - vm_compute. reflexivity.
  - reflexivity.
  - vm_compute. reflexivity.
  - split; [exact Hrun|].
    apply (Hlb eq_refl VNone). vm_compute. reflexivity.
Defined.

Lemma base64_text_always_decodes_witness :
  decode_utf8 (b64encode (list_byte_of_string "foobar")) = Some "Zm9vYmFy"
  ∧ fst (validate_cert ns_cert) = Ok tt
  ∧ snd (validate_cert ns_cert) !! "cert_data" = Some (VStr "Zm9vYmFy").
Proof.
  destruct (base64_text_always_decodes (C := collaborators)) as (Hdec & Hcert).
  split; [apply (Hdec (list_byte_of_string "foobar"))|].
  apply (Hcert ns_cert (VStr "cert.pfx") (VStr "secret") VNone
           (list_byte_of_string "foobar")).
  - vm_compute. reflexivity.
  - vm_compute. reflexivity.
  - vm_compute. reflexivity.
  - reflexivity.
  - reflexivity.
  - vm_compute. reflexivity.
Defined.

End Concrete.

(** * Further properties *)

(** ** What a validator may change *)

Section Frames.
Context {A B : Type}.

Lemma assigned_within_refl W ns : assigned_within W ns ns.
Proof. split; auto. Qed.

Lemma assigned_within_trans W ns1 ns2 ns3 :
  assigned_within W ns1 ns2 -> assigned_within W ns2 ns3 ->
  assigned_within W ns1 ns3.
Proof.
  intros [H1 H1'] [H2 H2']. split.
  - intros k Hk. rewrite H2, H1 by exact Hk. reflexivity.
  - intros k Hk. apply H2', H1', Hk.
Qed.

Lemma wo_ret W (a : A) : writes_only W (ret a).
Proof. intros ns. apply assigned_within_refl. Qed.

Lemma wo_raise W e : writes_only W (@raise A e).
Proof. intros ns. apply assigned_within_refl. Qed.

Lemma wo_bind W (c : M A) (k : A -> M B) :
  writes_only W c -> (∀ a, writes_only W (k a)) -> writes_only W (bind c k).
Proof.
  intros Hc Hk ns. unfold bind. specialize (Hc ns).
  destruct (c ns) as [[a|e] ns1]; simpl in *; [|exact Hc].
  eapply assigned_within_trans; [exact Hc|apply Hk].
Qed.

Lemma ro_ret (a : A) : read_only (ret a).
Proof. intros ns. reflexivity. Qed.

Lemma ro_raise e : read_only (@raise A e).
Proof. intros ns. reflexivity. Qed.

Lemma ro_bind (c : M A) (k : A -> M B) :
  read_only c -> (∀ a, read_only (k a)) -> read_only (bind c k).
Proof.
  intros Hc Hk ns. unfold bind. specialize (Hc ns).
  destruct (c ns) as [[a|e] ns1]; simpl in *; subst; [apply Hk|reflexivity].
Qed.

Lemma atomic_of_read_only (c : M A) : read_only c -> atomic c.
Proof. intros H ns _. apply H. Qed.

Lemma atomic_bind (c : M A) (k : A -> M B) :
  read_only c -> (∀ a, atomic (k a)) -> atomic (bind c k).
Proof.
  intros Hc Hk ns. unfold bind. specialize (Hc ns).
  destruct (c ns) as [[a|e] ns1]; simpl in *; subst; [apply Hk|reflexivity].
Qed.

End Frames.

Lemma wo_getattr W name : writes_only W (getattr name).
Proof.
  intros ns. unfold getattr. destruct (ns !! name); apply assigned_within_refl.
Qed.

Lemma wo_setattr W name v : name ∈ W -> writes_only W (setattr name v).
Proof.
  intros Hin ns. unfold setattr. simpl. split.
  - intros k Hk. apply lookup_insert_ne. intros ->. exact (Hk Hin).
  - intros k Hk. destruct (decide (name = k)) as [->|Hne].
    + rewrite lookup_insert_eq. eauto.
    + rewrite lookup_insert_ne by exact Hne. exact Hk.
Qed.

Lemma ro_getattr name : read_only (getattr name).
Proof. intros ns. unfold getattr. destruct (ns !! name); reflexivity. Qed.

Lemma atomic_setattr name v : atomic (setattr name v).
Proof. intros ns H. discriminate H. Qed.

Lemma wo_py_in W lit v : writes_only W (py_in lit v).
Proof. destruct v; first [apply wo_ret | apply wo_raise]. Qed.

Lemma wo_py_replace W v old new : writes_only W (py_replace v old new).
Proof. destruct v; first [apply wo_ret | apply wo_raise]. Qed.

Lemma wo_py_iter W v : writes_only W (py_iter v).
Proof. destruct v; first [apply wo_ret | apply wo_raise]. Qed.

Lemma ro_py_iter v : read_only (py_iter v).
Proof. destruct v; first [apply ro_ret | apply ro_raise]. Qed.

Ltac unfold_combinators :=
  unfold if_, and_then, not_, attr_truthy, attr_is_none, attr_eq, when.

Ltac in_list := repeat first [apply list_elem_of_here | apply list_elem_of_further].

Ltac wo_step :=
  first
    [ apply wo_ret | apply wo_raise | apply wo_getattr
    | apply wo_py_in | apply wo_py_replace | apply wo_py_iter
    | apply wo_setattr; in_list
    | apply wo_bind; [|intros ?]
    | match goal with
      | |- writes_only _ (if ?b then _ else _) => destruct b
      | |- writes_only _ (match ?x with _ => _ end) => destruct x
      end ].

Ltac ro_loop := fail.

Ltac ro_step :=
  first
    [ ro_loop | apply ro_ret | apply ro_raise | apply ro_getattr | apply ro_py_iter
    | apply ro_bind; [|intros ?]
    | match goal with
      | |- read_only (if ?b then _ else _) => destruct b
      | |- read_only (match ?x with _ => _ end) => destruct x
      end ].

Ltac atomic_step :=
  first
    [ apply atomic_setattr
    | apply atomic_of_read_only; solve [repeat ro_step]
    | apply atomic_bind; [solve [repeat ro_step]|intros ?]
    | match goal with
      | |- atomic (if ?b then _ else _) => destruct b
      | |- atomic (match ?x with _ => _ end) => destruct x
      end ].

Section Frame.
Context {C : Collaborators}.

Lemma wo_lb_id_loop W subscription lb child_type raw acc :
  writes_only W (lb_id_loop subscription lb child_type raw acc).
Proof.
  revert acc. induction raw as [|item rest IH]; intros acc; simpl.
  - apply wo_ret.
  - repeat first [apply IH | wo_step].
Qed.

Lemma ro_lb_id_loop subscription lb child_type raw acc :
  read_only (lb_id_loop subscription lb child_type raw acc).
Proof.
  revert acc. induction raw as [|item rest IH]; intros acc; simpl.
  - apply ro_ret.
  - repeat first [apply IH | ro_step].
Qed.

Lemma wo_servers_loop W items acc : writes_only W (servers_loop items acc).
Proof.
  revert acc. induction items as [|item rest IH]; intros acc; simpl.
  - apply wo_ret.
  - repeat first [apply IH | wo_step].
Qed.

Lemma ro_servers_loop items acc : read_only (servers_loop items acc).
Proof.
  revert acc. induction items as [|item rest IH]; intros acc; simpl.
  - apply ro_ret.
  - repeat first [apply IH | ro_step].
Qed.

Lemma validator_writes_only (v : validator) :
  writes_only (assigned v) (run_validator v).
Proof.
  destruct v; cbn [run_validator assigned];
    unfold validate_inbound_nat_rule_id_list, validate_address_pool_id_list,
      _generate_lb_id_list_from_names_or_ids,
      validate_inbound_nat_rule_name_or_id, validate_address_pool_name_or_id,
      validate_subnet_name_or_id, validate_private_ip_address,
      validate_public_ip_name_or_id, validate_public_ip_type,
      validate_nsg_name_or_id, validate_address_prefixes, validate_servers,
      validate_cert, process_app_gateway_namespace,
      process_lb_create_namespace, process_nic_create_namespace,
      process_public_ip_create_namespace;
    unfold_combinators;
    repeat first [apply wo_lb_id_loop | apply wo_servers_loop | wo_step].
Qed.

End Frame.

Ltac ro_loop ::= first [apply ro_lb_id_loop | apply ro_servers_loop].

Section Atomicity.
Context {C : Collaborators}.

Lemma validator_atomic (v : validator) :
  assigns_last v = true -> atomic (run_validator v).
Proof.
  destruct v; cbn [run_validator assigns_last]; intros Hlast;
    try discriminate Hlast;
    unfold validate_inbound_nat_rule_id_list, validate_address_pool_id_list,
      _generate_lb_id_list_from_names_or_ids,
      validate_inbound_nat_rule_name_or_id, validate_address_pool_name_or_id,
      validate_subnet_name_or_id, validate_private_ip_address,
      validate_public_ip_name_or_id, validate_nsg_name_or_id,
      validate_servers, process_public_ip_create_namespace;
    unfold_combinators;
    repeat atomic_step.
Qed.

End Atomicity.

Section FurtherTheorems.
Context {C : Collaborators}.

(** X1.  Whatever the namespace and whatever the outcome, a validator leaves
    every attribute outside its own list of assigned attributes as it was. *)
Theorem validator_leaves_other_attributes
    (v : validator) (ns : namespace) (k : string) :
  k ∉ assigned v ->
  snd (run_validator v ns) !! k = ns !! k.
Proof. intros Hk. apply (validator_writes_only v ns), Hk. Qed.


(** X3.  The validators that assign as their last step (the name-or-id
    validators, scalar and list-valued, [validate_private_ip_address],
    [validate_servers], [process_public_ip_create_namespace]) are all or
    nothing: when one of them raises, for whatever reason, the namespace is
    exactly as before the call. *)
Theorem validator_raise_leaves_namespace (v : validator) (ns : namespace) :
  assigns_last v = true ->
  raised (fst (run_validator v ns)) = true ->
  snd (run_validator v ns) = ns.
Proof. intros Hlast. apply (validator_atomic v Hlast). Qed.

End FurtherTheorems.

(** ** Servers that are not strings *)

Section ServersAgain.
Context {C : Collaborators}.

Lemma servers_loop_type_error (items acc : list value) (ns : namespace) :
  forallb is_str items = false ->
  servers_loop items acc ns = (Raise TypeError, ns).
Proof.
  revert acc. induction items as [|item rest IH]; intros acc H; simpl in *.
  - discriminate H.
  - destruct item; simpl in H; try reflexivity.
    destruct (inet_aton s); apply IH, H.
Qed.

Lemma validate_servers_type_error (ns : namespace) (items : list value) :
  ns !! "servers" = Some (VList items) ->
  forallb is_str items = false ->
  validate_servers ns = (Raise TypeError, ns).
Proof.
  intros Hs Hne. unfold validate_servers.
  assert (Ht : truthy (VList items) = true)
    by (destruct items; [discriminate Hne|reflexivity]).
  mrun. cbn [py_iter]. mrun.
  unfold bind at 1. rewrite servers_loop_type_error by exact Hne.
  reflexivity.
Qed.

(** X4.  [validate_servers] accepts strings only: when some entry of the
    list is not a string, it raises [TypeError] (which its handler for
    [socket.error] does not catch) and the namespace is as before; nothing
    is assigned for the entries that came first. *)
Theorem validate_servers_rejects_non_strings
    (ns : namespace) (items : list value) :
  ns !! "servers" = Some (VList items) ->
  forallb is_str items = false ->
  validate_servers ns = (Raise TypeError, ns).
Proof. apply validate_servers_type_error. Qed.

(** X5.  [validate_servers] cannot be run twice: after a run on a non-empty
    list of strings the attribute holds dictionaries, and a second run
    raises [TypeError] and changes nothing more.  After a run on an empty
    list the second run returns with the same namespace. *)
Theorem validate_servers_second_run (ns : namespace) (l : list string) :
  ns !! "servers" = Some (VList (map VStr l)) ->
  let ns1 := snd (validate_servers ns) in
  fst (validate_servers ns) = Ok tt
  ∧ validate_servers ns1
    = (match l with [] => Ok tt | _ => Raise TypeError end, ns1).
Proof.
  intros Hs ns1. subst ns1.
  rewrite (validate_servers_strings ns l Hs). cbn [fst snd].
  split; [reflexivity|].
  destruct l as [|s l].
  - cbn [map]. unfold validate_servers. mrun. cbn [py_iter]. mrun.
    cbn [servers_loop]. mrun. unfold setattr.
    rewrite insert_insert_eq. reflexivity.
  - eapply validate_servers_type_error.
    + apply lookup_insert_eq.
    + reflexivity.
Qed.

End ServersAgain.

(** ** Marking a prefix and validating it *)

Lemma prefix_app (p s : string) : String.prefix p (p ++ s) = true.
Proof.
  induction p as [|c p IH]; simpl.
  - destruct s; reflexivity.
  - destruct (ascii_dec c c) as [_|Hne]; [exact IH|contradiction].
Qed.

Lemma contains_of_prefix (p s : string) :
  String.prefix p s = true -> contains p s = true.
Proof. destruct s; simpl; intros ->; reflexivity. Qed.

Lemma contains_marked (p s : string) : contains p (p ++ s) = true.
Proof. apply contains_of_prefix, prefix_app. Qed.

Section Prefixes.
Context {C : Collaborators}.

(** The run of [validate_address_prefixes] on two string prefixes. *)
Lemma address_prefixes_run (ns : namespace) (sp vp : string) (st sn : value) :
  ns !! "subnet_address_prefix" = Some (VStr sp) ->
  ns !! "vnet_address_prefix" = Some (VStr vp) ->
  ns !! "subnet_type" = Some st ->
  ns !! "subnet" = Some sn ->
  validate_address_prefixes ns
  = (if negb (eq_str st "new")
        && (contains SPECIFIED_SENTINEL sp || contains SPECIFIED_SENTINEL vp)
     then Raise (existing_subnet_error sn) else Ok tt,
     <["vnet_address_prefix" := VStr (str_replace SPECIFIED_SENTINEL "" vp)]>
       (<["subnet_address_prefix" :=
            VStr (str_replace SPECIFIED_SENTINEL "" sp)]> ns)).
Proof.
  intros Hsp Hvp Hst Hsn.
  unfold validate_address_prefixes. mrun. cbn [py_in py_replace]. mrun.
  cbn [py_in py_replace]. mrun. cbn [py_in py_replace]. mrun.
  cbn [py_in py_replace]. mrun.
  destruct (eq_str st "new") eqn:Hnew; cbn [negb andb]; mrun; [reflexivity|].
  destruct (contains SPECIFIED_SENTINEL sp || contains SPECIFIED_SENTINEL vp);
    mrun; reflexivity.
Qed.

(** X6.  [validate_address_prefixes] needs both prefixes: when one of them
    is None, the test for the marker raises [TypeError] before anything is
    assigned, so the namespace is as before, the other prefix still carrying
    its marker. *)
Theorem validate_address_prefixes_none
    (ns : namespace) (sp vp : value) :
  ns !! "subnet_address_prefix" = Some sp ->
  ns !! "vnet_address_prefix" = Some vp ->
  sp = VNone ∨ (is_str sp = true ∧ vp = VNone) ->
  validate_address_prefixes ns = (Raise TypeError, ns).
Proof.
  intros Hsp Hvp [->|[Hstr ->]]; unfold validate_address_prefixes.
  - mrun. cbn [py_in]. mrun. reflexivity.
  - destruct sp; try discriminate Hstr.
    mrun. cbn [py_in]. mrun. cbn [py_in]. mrun. reflexivity.
Qed.

(** X7.  Marking and validating are inverse to each other on the value: when
    [markSpecifiedAction] stores a text that does not itself contain the
    marker, and the other prefix is an unmarked default,
    [validate_address_prefixes] leaves exactly that text in the attribute
    and nothing else changed; it returns for a new subnet and raises for a
    reused one. *)
Theorem mark_then_validate
    (ns : namespace) (raw vp : string) (st sn : value) :
  str_of (VStr raw) = raw ->
  contains SPECIFIED_SENTINEL raw = false ->
  ns !! "vnet_address_prefix" = Some (VStr vp) ->
  contains SPECIFIED_SENTINEL vp = false ->
  ns !! "subnet_type" = Some st ->
  ns !! "subnet" = Some sn ->
  (markSpecifiedAction_call "subnet_address_prefix" (VStr raw);;
   validate_address_prefixes) ns
  = (if eq_str st "new" then Ok tt else Raise (existing_subnet_error sn),
     <["subnet_address_prefix" := VStr raw]> ns).
Proof.
  intros Hfmt Hraw Hvp Hplain Hst Hsn.
  unfold markSpecifiedAction_call. rewrite bind_setattr, Hfmt.
  set (ns0 := <["subnet_address_prefix" := VStr ("__SET__" ++ raw)]> ns).
  rewrite (address_prefixes_run ns0 ("__SET__" ++ raw) vp st sn)
    by (unfold ns0; simplify_map_eq; done).
  change ("__SET__" ++ raw)%string with (SPECIFIED_SENTINEL ++ raw)%string.
  rewrite contains_marked, str_replace_marked, !str_replace_absent by assumption.
  cbn [orb]. rewrite andb_true_r.
  f_equal.
  - destruct (eq_str st "new"); reflexivity.
  - unfold ns0. rewrite insert_insert_eq.
    apply insert_id. rewrite lookup_insert_ne by done. exact Hvp.
Qed.

(** X8.  An explicitly given prefix is always noticed: whatever value
    [markSpecifiedAction] stores for the subnet prefix, a following
    [validate_address_prefixes] raises when the subnet is reused (its type
    is not 'new'). *)
Theorem marked_prefix_is_rejected_on_reuse
    (ns : namespace) (values : value) (vp : string) (st sn : value) :
  ns !! "vnet_address_prefix" = Some (VStr vp) ->
  ns !! "subnet_type" = Some st ->
  eq_str st "new" = false ->
  ns !! "subnet" = Some sn ->
  fst ((markSpecifiedAction_call "subnet_address_prefix" values;;
        validate_address_prefixes) ns)
  = Raise (existing_subnet_error sn).
Proof.
  intros Hvp Hst Hnew Hsn.
  unfold markSpecifiedAction_call. rewrite bind_setattr.
  set (ns0 := <["subnet_address_prefix" := _]> ns).
  rewrite (address_prefixes_run ns0 ("__SET__" ++ str_of values) vp st sn)
    by (unfold ns0; simplify_map_eq; done).
  change ("__SET__" ++ str_of values)%string
    with (SPECIFIED_SENTINEL ++ str_of values)%string.
  rewrite contains_marked, Hnew. reflexivity.
Qed.

(** X9.  The explicit values are reported once: when both prefixes are as
    the argument parser leaves them, [validate_address_prefixes] run again
    on the namespace it produced, whether it returned or raised, returns
    normally and changes nothing. *)
Theorem validate_address_prefixes_second_run
    (ns : namespace) (sp vp : string) (st sn : value) :
  ns !! "subnet_address_prefix" = Some (VStr sp) ->
  ns !! "vnet_address_prefix" = Some (VStr vp) ->
  ns !! "subnet_type" = Some st ->
  ns !! "subnet" = Some sn ->
  plain_or_marked sp ->
  plain_or_marked vp ->
  let ns1 := snd (validate_address_prefixes ns) in
  validate_address_prefixes ns1 = (Ok tt, ns1).
Proof.
  intros Hsp Hvp Hst Hsn Psp Pvp ns1. subst ns1.
  pose proof (str_replace_clean sp Psp) as Hcs.
  pose proof (str_replace_clean vp Pvp) as Hcv.
  rewrite (address_prefixes_run ns sp vp st sn Hsp Hvp Hst Hsn). cbn [snd].
  set (sp' := str_replace SPECIFIED_SENTINEL "" sp) in *.
  set (vp' := str_replace SPECIFIED_SENTINEL "" vp) in *.
  set (ns1 := <["vnet_address_prefix" := VStr vp']> _).
  rewrite (address_prefixes_run ns1 sp' vp' st sn)
    by (unfold ns1; simplify_map_eq; done).
  rewrite Hcs, Hcv. cbn [orb]. rewrite andb_false_r.
  rewrite !str_replace_absent by assumption.
  f_equal. rewrite !insert_id; [reflexivity| |];
    unfold ns1; simplify_map_eq; done.
Qed.

End Prefixes.

(** ** A certificate file that cannot be read *)

Section CertificateFile.
Context {C : Collaborators}.

(** X10.  When file and password are given but the file cannot be opened,
    [validate_cert] raises the error of [open] before it assigns anything:
    protocol, port and [cert_data] are as before. *)
Theorem validate_cert_unreadable (ns : namespace) (cd cp : value) :
  ns !! "cert_data" = Some cd ->
  ns !! "cert_password" = Some cp ->
  truthy cd = true -> truthy cp = true ->
  open_rb cd = None ->
  validate_cert ns = (Raise IOError, ns).
Proof.
  intros Hcd Hcp Hd Hp Hopen. unfold validate_cert.
  mrun. cbn [forallb]. rewrite Hd, Hp. cbn [negb andb].
  mrun. rewrite Hopen. reflexivity.
Qed.

End CertificateFile.

(** ** The validators that derive attributes *)

Lemma inv_getattr {A} name (f : value -> M A) (ns ns1 : namespace) (a : A) :
  bind (getattr name) f ns = (Ok a, ns1) ->
  ∃ v, ns !! name = Some v ∧ f v ns = (Ok a, ns1).
Proof.
  unfold bind, getattr. destruct (ns !! name) as [v|]; [eauto|discriminate].
Qed.

Lemma inv_ret {A} (a b : A) (ns ns1 : namespace) :
  ret a ns = (Ok b, ns1) -> a = b ∧ ns1 = ns.
Proof. unfold ret. intros H. injection H as -> ->. split; reflexivity. Qed.

Ltac unfold_derivers :=
  unfold validate_private_ip_address, validate_public_ip_type,
    process_app_gateway_namespace, process_lb_create_namespace,
    process_nic_create_namespace, process_public_ip_create_namespace.

(** [minv H] follows a run that returned, [H : c ns = (Ok a, ns1)], and
    collects the attributes it read and the branches it took. *)
Ltac minv H :=
  repeat first
    [ rewrite bind_bind in H
    | rewrite bind_ret in H
    | rewrite bind_setattr in H
    | rewrite bind_raise in H; discriminate H
    | discriminate H
    | let v := fresh "v" in
      let Hv := fresh "Hv" in
      apply inv_getattr in H as (v & Hv & H); simplify_map_eq
    | match type of H with
      | context [if ?b then _ else _] => destruct b eqn:?
      end
    | progress cbv beta iota in H
    | progress cbn [negb] in H ].

Ltac map_ext :=
  apply map_eq; intros ?;
  repeat (rewrite lookup_insert; case_decide); simplify_eq; try done.

Section Derived.
Context {C : Collaborators}.

(** X11.  The validators that only derive attributes
    ([validate_private_ip_address], [validate_public_ip_type] and the four
    [process_..._namespace] functions) can be run again: when a run returns,
    a second run on the namespace it produced returns as well and changes
    nothing. *)
Theorem deriver_idempotent (v : validator) (ns ns1 : namespace) :
  derives v = true ->
  run_validator v ns = (Ok tt, ns1) ->
  run_validator v ns1 = (Ok tt, ns1).
Proof.
  destruct v; cbn [derives run_validator]; intros Hd; try discriminate Hd;
    unfold_derivers; unfold_combinators; intros H.
  all: minv H; try congruence; unfold ret, setattr in H; injection H as <-.
  all: mrun; unfold ret, setattr.
  all: try reflexivity.
  all: try (f_equal; map_ext).
  all: try (rewrite ?insert_insert_eq; reflexivity).
Qed.

(** X12.  [process_app_gateway_namespace] with the attributes it reads in
    place always returns, and afterwards the frontend type is 'publicIp'
    when a public IP is given and 'privateIp' otherwise, and the public-IP
    type is never empty: a given type is kept, a missing one becomes
    'none'.  For a private frontend the allocation is 'static' or 'dynamic'
    according to the private IP address; for a public frontend the
    allocation is not touched. *)
Theorem app_gateway_frontend (ns : namespace) (pip addr ty : value) :
  ns !! "public_ip" = Some pip ->
  ns !! "private_ip_address" = Some addr ->
  ns !! "public_ip_type" = Some ty ->
  let ns' := snd (process_app_gateway_namespace ns) in
  fst (process_app_gateway_namespace ns) = Ok tt
  ∧ ns' !! "frontend_type"
    = Some (VStr (if truthy pip then "publicIp" else "privateIp"))
  ∧ ns' !! "private_ip_address_allocation"
    = (if truthy pip then ns !! "private_ip_address_allocation"
       else Some (VStr (if truthy addr then "static" else "dynamic")))
  ∧ ns' !! "public_ip_type" = Some (if truthy ty then ty else VStr "none")
  ∧ ∃ t, ns' !! "public_ip_type" = Some t ∧ truthy t = true.
Proof.
  intros Hp Ha Ht ns'. subst ns'. unfold process_app_gateway_namespace.
  destruct (truthy pip) eqn:Ep, (truthy addr) eqn:Ea, (truthy ty) eqn:Et;
    mrun; unfold ret, setattr; cbn [fst snd]; simplify_map_eq;
    repeat split; eauto.
Qed.

(** X13.  For a private frontend [process_app_gateway_namespace] decides the
    allocation by itself: running [validate_private_ip_address] before it
    makes no difference to the outcome or to the namespace. *)
Theorem private_frontend_overrides_allocation
    (ns : namespace) (pip addr ty : value) :
  ns !! "public_ip" = Some pip ->
  truthy pip = false ->
  ns !! "private_ip_address" = Some addr ->
  ns !! "public_ip_type" = Some ty ->
  (validate_private_ip_address;; process_app_gateway_namespace) ns
  = process_app_gateway_namespace ns.
Proof.
  intros Hp Ep Ha Ht.
  unfold validate_private_ip_address, process_app_gateway_namespace.
  destruct (truthy addr) eqn:Ea, (truthy ty) eqn:Et;
    mrun; unfold ret, setattr; f_equal; map_ext.
Qed.

(** X14.  [validate_public_ip_type] without a subnet changes nothing, and
    raises exactly when a public IP address and a DNS name for it are given
    while the public-IP type is not 'new'. *)
Theorem public_ip_type_without_subnet (ns : namespace) (subnet pip dns ty : value) :
  ns !! "subnet" = Some subnet ->
  truthy subnet = false ->
  ns !! "public_ip_address" = Some pip ->
  ns !! "public_ip_dns_name" = Some dns ->
  ns !! "public_ip_address_type" = Some ty ->
  validate_public_ip_type ns
  = (if truthy pip && truthy dns && negb (eq_str ty "new")
     then Raise (ArgumentError
       "Can only specify --public-ip-dns-name when creating a new public IP address.")
     else Ok tt, ns).
Proof.
  intros Hs Es Hp Hd Ht. unfold validate_public_ip_type.
  destruct (truthy pip) eqn:Ep, (truthy dns) eqn:Ed, (eq_str ty "new") eqn:En;
    mrun; reflexivity.
Qed.

(** X15.  [process_lb_create_namespace] raises exactly when a subnet and a
    public IP address are both given, and it records a given DNS name by
    setting the DNS name type to 'new' in either case, also when it
    raises; nothing else is changed. *)
Theorem lb_create_namespace_run (ns : namespace) (dns subnet pip : value) :
  ns !! "public_ip_dns_name" = Some dns ->
  ns !! "subnet" = Some subnet ->
  ns !! "public_ip_address" = Some pip ->
  process_lb_create_namespace ns
  = (if truthy subnet && truthy pip
     then Raise (ArgumentError
       "Must specify a subnet OR a public IP address, not both.")
     else Ok tt,
     if truthy dns then <["dns_name_type" := VStr "new"]> ns else ns).
Proof.
  intros Hd Hs Hp. unfold process_lb_create_namespace.
  destruct (truthy dns) eqn:Ed, (truthy subnet) eqn:Es, (truthy pip) eqn:Ep;
    mrun; reflexivity.
Qed.

End Derived.

(** ** base64: length and round trip *)

Lemma b64encode_length (bs : list byte) :
  length (b64encode bs) = 4 * ((length bs + 2) / 3).
Proof.
  induction bs as [|a|a b|a b c r IH] using list_ind3;
    try reflexivity.
  cbn [b64encode length]. rewrite IH.
  replace (S (S (S (length r))) + 2) with (length r + 2 + 1 * 3) by lia.
  rewrite Nat.div_add by lia. lia.
Qed.

Lemma in_all_bytes (b : byte) : In b all_bytes.
Proof.
  assert (H : existsb (Byte.eqb b) all_bytes = true)
    by (destruct b; vm_compute; reflexivity).
  apply existsb_exists in H as (x & Hin & Heq).
  apply Byte.byte_dec_bl in Heq. subst x. exact Hin.
Qed.

Lemma for_all_bytes (P : byte -> bool) :
  forallb P all_bytes = true -> ∀ b, P b = true.
Proof.
  intros H b. apply (proj1 (List.forallb_forall P all_bytes) H), in_all_bytes.
Qed.

Lemma for_all_byte_pairs (P : byte -> byte -> bool) :
  forallb (fun a => forallb (P a) all_bytes) all_bytes = true ->
  ∀ a b, P a b = true.
Proof.
  intros H a b.
  apply (for_all_bytes (P a)), (for_all_bytes _ H a).
Qed.

Lemma sextet_in_range (n : N) :
  (n < 64)%N -> In n (map N.of_nat (seq 0 64)).
Proof.
  intros H. apply in_map_iff. exists (N.to_nat n). split.
  - apply N2Nat.id.
  - apply in_seq. lia.
Qed.

(** A character of the alphabet is found at its own position, and is not
    the padding character. *)
Lemma b64_index_char (n : N) :
  (n < 64)%N ->
  b64_index (b64_char n) = n ∧ Byte.eqb (b64_char n) b64_pad = false.
Proof.
  intros H.
  assert (Hall : forallb
            (fun n => N.eqb (b64_index (b64_char n)) n
                      && negb (Byte.eqb (b64_char n) b64_pad))
            (map N.of_nat (seq 0 64)) = true)
    by (vm_compute; reflexivity).
  pose proof (proj1 (List.forallb_forall _ _) Hall n (sextet_in_range n H))
    as [H1 H2]%andb_true_iff.
  split; [apply N.eqb_eq, H1|apply negb_true_iff, H2].
Qed.

Section Sextets.
Variables a b c : byte.

Let na := Byte.to_N a.
Let nb := Byte.to_N b.
Let nc := Byte.to_N c.

Lemma sextet1_lt : (N.shiftr na 2 < 64)%N.
Proof.
  subst na. apply N.ltb_lt. revert a. apply for_all_bytes.
  vm_compute. reflexivity.
Qed.

Lemma sextet2_lt :
  (N.lor (N.shiftl (N.land na 3) 4) (N.shiftr nb 4) < 64)%N.
Proof.
  subst na nb. apply N.ltb_lt. revert a b. apply for_all_byte_pairs.
  vm_compute. reflexivity.
Qed.

Lemma sextet2_pad_lt : (N.shiftl (N.land na 3) 4 < 64)%N.
Proof.
  subst na. apply N.ltb_lt. revert a. apply for_all_bytes.
  vm_compute. reflexivity.
Qed.

Lemma sextet3_lt :
  (N.lor (N.shiftl (N.land nb 15) 2) (N.shiftr nc 6) < 64)%N.
Proof.
  subst nb nc. apply N.ltb_lt. revert b c. apply for_all_byte_pairs.
  vm_compute. reflexivity.
Qed.

Lemma sextet3_pad_lt : (N.shiftl (N.land nb 15) 2 < 64)%N.
Proof.
  subst nb. apply N.ltb_lt. revert b. apply for_all_bytes.
  vm_compute. reflexivity.
Qed.

Lemma sextet4_lt : (N.land nc 63 < 64)%N.
Proof.
  subst nc. apply N.ltb_lt. revert c. apply for_all_bytes.
  vm_compute. reflexivity.
Qed.

Lemma first_byte_back :
  byte_of_N (N.lor (N.shiftl (N.shiftr na 2) 2)
               (N.shiftr (N.lor (N.shiftl (N.land na 3) 4) (N.shiftr nb 4)) 4))
  = a.
Proof.
  subst na nb. apply Byte.byte_dec_bl. revert a b. apply for_all_byte_pairs.
  vm_compute. reflexivity.
Qed.

Lemma first_byte_back_pad :
  byte_of_N (N.lor (N.shiftl (N.shiftr na 2) 2)
               (N.shiftr (N.shiftl (N.land na 3) 4) 4))
  = a.
Proof.
  subst na. apply Byte.byte_dec_bl. revert a. apply for_all_bytes.
  vm_compute. reflexivity.
Qed.

Lemma second_byte_high :
  N.land (N.lor (N.shiftl (N.land na 3) 4) (N.shiftr nb 4)) 15 = N.shiftr nb 4.
Proof.
  subst na nb. apply N.eqb_eq. revert a b. apply for_all_byte_pairs.
  vm_compute. reflexivity.
Qed.

Lemma second_byte_low :
  N.shiftr (N.lor (N.shiftl (N.land nb 15) 2) (N.shiftr nc 6)) 2 = N.land nb 15.
Proof.
  subst nb nc. apply N.eqb_eq. revert b c. apply for_all_byte_pairs.
  vm_compute. reflexivity.
Qed.

Lemma second_byte_low_pad :
  N.shiftr (N.shiftl (N.land nb 15) 2) 2 = N.land nb 15.
Proof.
  subst nb. apply N.eqb_eq. revert b. apply for_all_bytes.
  vm_compute. reflexivity.
Qed.

Lemma second_byte_back :
  byte_of_N (N.lor (N.shiftl (N.shiftr nb 4) 4) (N.land nb 15)) = b.
Proof.
  subst nb. apply Byte.byte_dec_bl. revert b. apply for_all_bytes.
  vm_compute. reflexivity.
Qed.

Lemma third_byte_back :
  byte_of_N (N.lor (N.shiftl
                      (N.land (N.lor (N.shiftl (N.land nb 15) 2)
                                 (N.shiftr nc 6)) 3) 6)
               (N.land nc 63))
  = c.
Proof.
  subst nb nc. apply Byte.byte_dec_bl. revert b c. apply for_all_byte_pairs.
  vm_compute. reflexivity.
Qed.

End Sextets.

Lemma b64decode_b64encode (bs : list byte) : b64decode (b64encode bs) = bs.
Proof.
  induction bs as [|a|a b|a b c r IH] using list_ind3.
  - reflexivity.
  - cbn [b64encode b64decode].
    destruct (b64_index_char _ (sextet1_lt a)) as [-> _].
    destruct (b64_index_char _ (sextet2_pad_lt a)) as [-> _].
    rewrite first_byte_back_pad. reflexivity.
  - cbn [b64encode b64decode].
    destruct (b64_index_char _ (sextet1_lt a)) as [-> _].
    destruct (b64_index_char _ (sextet2_lt a b)) as [-> _].
    destruct (b64_index_char _ (sextet3_pad_lt b)) as [-> ->].
    rewrite first_byte_back, second_byte_high, second_byte_low_pad,
      second_byte_back.
    reflexivity.
  - cbn [b64encode b64decode].
    destruct (b64_index_char _ (sextet1_lt a)) as [-> _].
    destruct (b64_index_char _ (sextet2_lt a b)) as [-> _].
    destruct (b64_index_char _ (sextet3_lt b c)) as [-> ->].
    destruct (b64_index_char _ (sextet4_lt c)) as [-> ->].
    rewrite first_byte_back, second_byte_high, second_byte_low,
      second_byte_back, third_byte_back, IH.
    reflexivity.
Qed.

Lemma string_of_list_byte_inj (l l' : list byte) :
  string_of_list_byte l = string_of_list_byte l' -> l = l'.
Proof.
  intros H.
  rewrite <- (list_byte_of_string_of_list_byte l),
          <- (list_byte_of_string_of_list_byte l'), H.
  reflexivity.
Qed.

Lemma string_of_list_byte_length (l : list byte) :
  String.length (string_of_list_byte l) = length l.
Proof.
  induction l as [|b l IH]; [reflexivity|].
  unfold string_of_list_byte in *. simpl. rewrite IH. reflexivity.
Qed.

Section Base64.
Context {C : Collaborators}.

(** X16.  The text [validate_cert] stores loses nothing of the file: it can
    be decoded back to the bytes of the file, so two files that lead to the
    same [cert_data] have the same bytes; and for a file of [n] bytes the
    text has 4 * ceil(n / 3) characters. *)
Theorem cert_data_determines_file
    (ns ns' : namespace) (cd cp fp cd' cp' fp' : value)
    (contents contents' : list byte) :
  ns !! "cert_data" = Some cd -> ns !! "cert_password" = Some cp ->
  ns !! "frontend_port" = Some fp ->
  truthy cd = true -> truthy cp = true -> open_rb cd = Some contents ->
  ns' !! "cert_data" = Some cd' -> ns' !! "cert_password" = Some cp' ->
  ns' !! "frontend_port" = Some fp' ->
  truthy cd' = true -> truthy cp' = true -> open_rb cd' = Some contents' ->
  (∃ text,
     snd (validate_cert ns) !! "cert_data" = Some (VStr text)
     ∧ b64decode (list_byte_of_string text) = contents
     ∧ String.length text = 4 * ((length contents + 2) / 3))
  ∧ (snd (validate_cert ns) !! "cert_data"
     = snd (validate_cert ns') !! "cert_data" ->
     contents = contents').
Proof.
  intros Hcd Hcp Hfp Hd Hp Ho Hcd' Hcp' Hfp' Hd' Hp' Ho'.
  rewrite (validate_cert_both ns cd cp fp contents) by assumption.
  rewrite (validate_cert_both ns' cd' cp' fp' contents') by assumption.
  unfold default_port. cbn [snd].
  assert (Hl : ∀ (m : namespace) (f : value) (p : Z) (t : string),
            (if truthy f then <["http_listener_protocol" := VStr "https"]>
                                (<["cert_data" := VStr t]> m)
             else <["frontend_port" := VInt p]>
                    (<["http_listener_protocol" := VStr "https"]>
                       (<["cert_data" := VStr t]> m))) !! "cert_data"
            = Some (VStr t)).
  { intros m f p t. destruct (truthy f); simplify_map_eq; reflexivity. }
  rewrite !Hl. split.
  - eexists. split; [reflexivity|split].
    + rewrite list_byte_of_string_of_list_byte. apply b64decode_b64encode.
    + rewrite string_of_list_byte_length. apply b64encode_length.
  - intros H. injection H as H. apply string_of_list_byte_inj in H.
    rewrite <- (b64decode_b64encode contents),
            <- (b64decode_b64encode contents'), H.
    reflexivity.
Qed.

End Base64.

(** ** The further properties on concrete namespaces *)

Section MoreConcrete.
Import Model Examples MoreExamples.

Lemma validator_leaves_other_attributes_witness :
  snd (run_validator Cert ns_cert) !! "cert_password"
  = ns_cert !! "cert_password".
Proof.
  apply (validator_leaves_other_attributes Cert ns_cert "cert_password").
  intros H. apply list_elem_of_In in H. simpl in H.
  intuition discriminate.
Defined.


Lemma validator_raise_leaves_namespace_witness :
  snd (run_validator SubnetNameOrId ns_subnet_name_no_vnet)
  = ns_subnet_name_no_vnet.
Proof.
  apply (validator_raise_leaves_namespace SubnetNameOrId ns_subnet_name_no_vnet).
  - reflexivity.
  - vm_compute. reflexivity.
Defined.

Lemma validate_servers_rejects_non_strings_witness :
  validate_servers ns_servers_mixed = (Raise TypeError, ns_servers_mixed).
Proof.
  apply (validate_servers_rejects_non_strings ns_servers_mixed
           [VStr "10.0.0.5"; VNone]).
  - vm_compute. reflexivity.
  - reflexivity.
Defined.

Lemma validate_servers_second_run_witness :
  fst (validate_servers ns_servers) = Ok tt
  ∧ validate_servers (snd (validate_servers ns_servers))
    = (Raise TypeError, snd (validate_servers ns_servers)).
Proof.
  apply (validate_servers_second_run ns_servers ["10.0.0.5"; "db.example.com"]).
  vm_compute. reflexivity.
Defined.

Lemma validate_address_prefixes_none_witness :
  validate_address_prefixes ns_prefix_missing
  = (Raise TypeError, ns_prefix_missing).
Proof.
  apply (validate_address_prefixes_none ns_prefix_missing VNone
           (VStr "__SET__10.0.0.0/16")).
  - vm_compute. reflexivity.
  - vm_compute. reflexivity.
  - left. reflexivity.
Defined.

Lemma mark_then_validate_witness :
  (markSpecifiedAction_call "subnet_address_prefix" (VStr "10.1.0.0/24");;
   validate_address_prefixes) (ns_prefix_defaults "new")
  = (Ok tt,
     <["subnet_address_prefix" := VStr "10.1.0.0/24"]>
       (ns_prefix_defaults "new")).
Proof.
  apply (mark_then_validate (ns_prefix_defaults "new")
           "10.1.0.0/24" "10.0.0.0/16" (VStr "new") (VStr "subnet1"));
    vm_compute; reflexivity.
Defined.

Lemma marked_prefix_is_rejected_on_reuse_witness :
  fst ((markSpecifiedAction_call "subnet_address_prefix" (VStr "10.1.0.0/24");;
        validate_address_prefixes) (ns_prefix_defaults "existing"))
  = Raise (CLIError
      "Existing subnet (subnet1) found. Cannot specify address prefixes when reusing an existing subnet.").
Proof.
  refine (marked_prefix_is_rejected_on_reuse (ns_prefix_defaults "existing")
            (VStr "10.1.0.0/24") "10.0.0.0/16" (VStr "existing")
            (VStr "subnet1") _ _ _ _);
    vm_compute; reflexivity.
Defined.

Lemma validate_address_prefixes_second_run_witness :
  fst (validate_address_prefixes ns_prefixes)
  = Raise (CLIError
      "Existing subnet (subnet1) found. Cannot specify address prefixes when reusing an existing subnet.")
  ∧ validate_address_prefixes (snd (validate_address_prefixes ns_prefixes))
    = (Ok tt, snd (validate_address_prefixes ns_prefixes)).
Proof.
  split; [vm_compute; reflexivity|].
  apply (validate_address_prefixes_second_run ns_prefixes
           "__SET__10.0.0.0/24" "10.0.0.0/16" (VStr "existing")
           (VStr "subnet1")).
  - vm_compute. reflexivity.
  - vm_compute. reflexivity.
  - vm_compute. reflexivity.
  - vm_compute. reflexivity.
  - exists "10.0.0.0/24". split; [reflexivity|right; reflexivity].
  - exists "10.0.0.0/16". split; [reflexivity|left; reflexivity].
Defined.

Lemma validate_cert_unreadable_witness :
  validate_cert ns_cert_missing = (Raise IOError, ns_cert_missing).
Proof.
  apply (validate_cert_unreadable ns_cert_missing
           (VStr "missing.pfx") (VStr "secret"));
    vm_compute; reflexivity.
Defined.

Lemma deriver_idempotent_witness :
  run_validator NicCreateNamespace
    (snd (run_validator NicCreateNamespace ns_nic))
  = (Ok tt, snd (run_validator NicCreateNamespace ns_nic)).
Proof.
  apply (deriver_idempotent NicCreateNamespace ns_nic).
  - reflexivity.
  - vm_compute. reflexivity.
Defined.

Lemma app_gateway_frontend_witness :
  fst (process_app_gateway_namespace ns_app_gateway) = Ok tt
  ∧ snd (process_app_gateway_namespace ns_app_gateway) !! "frontend_type"
    = Some (VStr "privateIp")
  ∧ snd (process_app_gateway_namespace ns_app_gateway)
      !! "private_ip_address_allocation"
    = Some (VStr "static")
  ∧ snd (process_app_gateway_namespace ns_app_gateway) !! "public_ip_type"
    = Some (VStr "none")
  ∧ ∃ t, snd (process_app_gateway_namespace ns_app_gateway) !! "public_ip_type"
         = Some t ∧ truthy t = true.
Proof.
  apply (app_gateway_frontend ns_app_gateway VNone (VStr "10.0.0.7") VNone);
    vm_compute; reflexivity.
Defined.

Lemma private_frontend_overrides_allocation_witness :
  (validate_private_ip_address;; process_app_gateway_namespace) ns_app_gateway
  = process_app_gateway_namespace ns_app_gateway.
Proof.
  apply (private_frontend_overrides_allocation ns_app_gateway
           VNone (VStr "10.0.0.7") VNone);
    vm_compute; reflexivity.
Defined.

Lemma public_ip_type_without_subnet_witness :
  validate_public_ip_type ns_lb_dns
  = (Raise (ArgumentError
       "Can only specify --public-ip-dns-name when creating a new public IP address."),
     ns_lb_dns).
Proof.
  apply (public_ip_type_without_subnet ns_lb_dns
           VNone (VStr "ip1") (VStr "lb1") (VStr "existing"));
    vm_compute; reflexivity.
Defined.

Lemma lb_create_namespace_run_witness :
  process_lb_create_namespace ns_lb_dns
  = (Ok tt, <["dns_name_type" := VStr "new"]> ns_lb_dns).
Proof.
  apply (lb_create_namespace_run ns_lb_dns (VStr "lb1") VNone (VStr "ip1"));
    vm_compute; reflexivity.
Defined.

Lemma cert_data_determines_file_witness :
  (∃ text,
     snd (validate_cert ns_cert) !! "cert_data" = Some (VStr text)
     ∧ b64decode (list_byte_of_string text) = list_byte_of_string "foobar"
     ∧ String.length text = 8)
  ∧ (snd (validate_cert ns_cert) !! "cert_data"
     = snd (validate_cert ns_cert) !! "cert_data" ->
     list_byte_of_string "foobar" = list_byte_of_string "foobar").
Proof.
  apply (cert_data_determines_file ns_cert ns_cert
           (VStr "cert.pfx") (VStr "secret") VNone
           (VStr "cert.pfx") (VStr "secret") VNone);
    vm_compute; reflexivity.
Defined.

End MoreConcrete.
